(** * BGP community parser: a shallow embedding of [commparser.py]

    The development follows the layout of the Python module: first the
    interpreter primitives the module leans on ([int], [str], string
    formatting, slicing, [str.split], [re.match]), then the JSON data
    model of a community definition, then the methods of
    [BGPCommunityParser] in source order, and finally the properties.

    Conventions.
    - A Python [str] is a [string]; a character is a code point below 256.
    - A method that can raise returns a [result]; [Raise e] is the
      exception leaving the method.
    - [int] is the unbounded conversion: the optional limit an interpreter
      may put on the number of digits of a numeral is switched off. *)

From Stdlib Require Import ZArith NArith String Ascii List Bool Lia.
From Stdlib Require Import DecimalString DecimalN DecimalZ DecimalPos DecimalFacts.
From stdpp Require Import gmap.
Import ListNotations.

Local Open Scope string_scope.
Local Open Scope Z_scope.

(* Let [simpl] and [cbn] compute the concatenation of strings. *)
Arguments String.append !s1 s2 : simpl nomatch.

(** ** Exceptions *)

Inductive exn : Type :=
| ValueError   (* int() on a non-numeral, unpacking a list of the wrong size *)
| KeyError     (* a missing dictionary key *)
| ReError      (* re.error: the pattern does not compile *)
| UnboundLocalError.   (* a local variable read before any assignment *)

Inductive result (A : Type) : Type :=
| Ok (a : A)
| Raise (e : exn).
Arguments Ok {A} a.
Arguments Raise {A} e.

Definition bind {A B : Type} (m : result A) (k : A -> result B) : result B :=
  match m with
  | Ok a => k a
  | Raise e => Raise e
  end.

Notation "'let!' x ':=' m 'in' k" := (bind m (fun x => k))
  (at level 10, x name, m at level 100, k at level 200).

(** [d[key]] on a dictionary whose key may be absent. *)
Definition getitem {A : Type} (o : option A) : result A :=
  match o with
  | Some a => Ok a
  | None => Raise KeyError
  end.

(** ** Interpreter primitives *)

Module Py.

(** *** Characters *)

Definition chr (n : nat) : ascii := ascii_of_nat n.
Definition ord (c : ascii) : nat := nat_of_ascii c.

Definition in_range (lo hi : nat) (c : ascii) : bool :=
  (lo <=? ord c)%nat && (ord c <=? hi)%nat.

Definition is_digit (c : ascii) : bool := in_range 48 57 c.

(** The characters [int] skips around a numeral. *)
Definition is_space (c : ascii) : bool :=
  in_range 9 13 c || (ord c =? 32)%nat || (ord c =? 133)%nat || (ord c =? 160)%nat.

(** The value of a character as a digit ([0-9], [a-z], [A-Z]); 36 when it
    is none. *)
Definition digit_value (c : ascii) : N :=
  if in_range 48 57 c then N.of_nat (ord c - 48)
  else if in_range 97 122 c then N.of_nat (ord c - 87)
  else if in_range 65 90 c then N.of_nat (ord c - 55)
  else 36%N.

Definition is_digit_of (base : N) (c : ascii) : bool :=
  (digit_value c <? base)%N.

(** *** [int(s, base)] *)

Fixpoint lstrip (s : string) : string :=
  match s with
  | String c s' => if is_space c then lstrip s' else s
  | EmptyString => s
  end.

Fixpoint all_space (s : string) : bool :=
  match s with
  | String c s' => is_space c && all_space s'
  | EmptyString => true
  end.

(** The digits after the first one: single underscores may separate
    digits.  Returns the value read and the text left over. *)
Fixpoint scan_digits (base : N) (acc : N) (s : string) : option (N * string) :=
  match s with
  | EmptyString => Some (acc, s)
  | String c s' =>
      if Ascii.eqb c "_" then
        match s' with
        | String d s'' =>
            if is_digit_of base d
            then scan_digits base (acc * base + digit_value d)%N s''
            else None
        | EmptyString => None
        end
      else if is_digit_of base c
      then scan_digits base (acc * base + digit_value c)%N s'
      else Some (acc, s)
  end.

(** A numeral without sign: a first digit, then [scan_digits], then only
    white space. *)
Definition int_magnitude (base : N) (s : string) : option N :=
  match s with
  | String c s' =>
      if is_digit_of base c then
        match scan_digits base (digit_value c) s' with
        | Some (n, rest) => if all_space rest then Some n else None
        | None => None
        end
      else None
  | EmptyString => None
  end.

(** The base prefix [0x] or [0X], which one underscore may follow. *)
Definition strip_prefix (base : N) (s : string) : string :=
  match s with
  | String "0" (String x s') =>
      if (base =? 16)%N && (Ascii.eqb x "x" || Ascii.eqb x "X") then
        match s' with
        | String "_" s'' => s''
        | _ => s'
        end
      else s
  | _ => s
  end.

Definition int_of (base : N) (s : string) : result Z :=
  let s := lstrip s in
  let '(neg, s) :=
    match s with
    | String "-" s' => (true, s')
    | String "+" s' => (false, s')
    | _ => (false, s)
    end in
  match int_magnitude base (strip_prefix base s) with
  | Some n => Ok (if neg then - Z.of_N n else Z.of_N n)
  | None => Raise ValueError
  end.

(** [int(s)] *)
Definition int (s : string) : result Z := int_of 10 s.

(** *** [str(n)] for an integer *)

Definition str (n : Z) : string := NilZero.string_of_int (Z.to_int n).

(** *** [format(n, "0{width}b")] *)

Fixpoint bin_pos (p : positive) : string :=
  match p with
  | xH => "1"
  | xO p' => bin_pos p' ++ "0"
  | xI p' => bin_pos p' ++ "1"
  end.

(** The binary digits of a natural number, without sign or padding. *)
Definition bin (n : N) : string :=
  match n with
  | N0 => "0"
  | Npos p => bin_pos p
  end.

Fixpoint zeros (n : nat) : string :=
  match n with
  | O => ""
  | S n' => String "0" (zeros n')
  end.

(** Sign-aware zero padding: the sign comes first and counts for the
    width; a text that is already wide enough is left as it is. *)
Definition format_0b (n : Z) (width : nat) : string :=
  let sign := if n <? 0 then "-" else "" in
  let digits := bin (Z.to_N (Z.abs n)) in
  sign ++ zeros (width - (String.length sign + String.length digits)) ++ digits.

(** *** Slicing [s[i:j]] *)

Definition clamp (len i : Z) : Z :=
  if i <? 0 then Z.max 0 (i + len) else Z.min i len.

Definition slice (s : string) (i j : Z) : string :=
  let len := Z.of_nat (String.length s) in
  let a := clamp len i in
  let b := clamp len j in
  substring (Z.to_nat a) (Z.to_nat (b - a)) s.

Definition len (s : string) : Z := Z.of_nat (String.length s).

(** *** [s.split(sep, maxsplit)] *)

Fixpoint split (sep : ascii) (maxsplit : nat) (s : string) : list string :=
  match s with
  | EmptyString => [""]
  | String c s' =>
      match maxsplit with
      | S k =>
          if Ascii.eqb c sep then "" :: split sep k s'
          else match split sep maxsplit s' with
               | h :: t => String c h :: t
               | [] => [String c ""]
               end
      | O => [s]
      end
  end.

(** *** [s.startswith(c)], [s.endswith(c)], [sep.join(l)] *)

Definition startswith (s : string) (c : ascii) : bool :=
  match s with
  | String d _ => Ascii.eqb c d
  | EmptyString => false
  end.

Fixpoint endswith (s : string) (c : ascii) : bool :=
  match s with
  | EmptyString => false
  | String d EmptyString => Ascii.eqb c d
  | String _ s' => endswith s' c
  end.

(** [s[1:]] and [s[:-1]] *)
Definition drop_first (s : string) : string := slice s 1 (len s).
Definition drop_last (s : string) : string := slice s 0 (-1).

Fixpoint join (sep : string) (l : list string) : string :=
  match l with
  | [] => ""
  | [x] => x
  | x :: l' => x ++ sep ++ join sep l'
  end.

End Py.

(** ** Regular expressions: [re.match]

    The engine covers the part of the pattern language that community
    definitions use: literal characters, [.], the escapes [\d] and [\D],
    an escaped punctuation character, character classes with ranges and
    negation, groups [( )] and [(?: )], alternation, the anchors [^] and
    [$], and the quantifiers [*], [+], [?], [{m}], [{m,}], [{,n}] and
    [{m,n}], each with an optional lazy mark.  [compile] rejects every
    other pattern, as the interpreter rejects an ill-formed one. *)

Module Re.

Inductive citem : Type :=
| IChar (c : ascii)
| IRange (lo hi : ascii)
| IDigit
| INotDigit.

Inductive cset : Type :=
| Any                                        (* [.]: all but a line feed *)
| One (i : citem)
| Class (negated : bool) (items : list citem).

Inductive regex : Type :=
| Eps
| Chr (cs : cset)
| Cat (r1 r2 : regex)
| Alt (r1 r2 : regex)
| Star (r : regex)
| Bol          (* [^] *)
| Eol.         (* [$] *)

Definition newline : ascii := Py.chr 10.

Definition item_mem (i : citem) (c : ascii) : bool :=
  match i with
  | IChar d => Ascii.eqb c d
  | IRange lo hi => Py.in_range (Py.ord lo) (Py.ord hi) c
  | IDigit => Py.is_digit c
  | INotDigit => negb (Py.is_digit c)
  end.

Definition cset_mem (cs : cset) (c : ascii) : bool :=
  match cs with
  | Any => negb (Ascii.eqb c newline)
  | One i => item_mem i c
  | Class negated items => xorb negated (existsb (fun i => item_mem i c) items)
  end.

(** *** Matching

    A state of the matcher is the number of characters consumed and the
    text that is left.  [run r st] lists the states in which a match of
    [r] that starts in [st] can end. *)

Definition state : Type := nat * string.

Definition shorter (st st' : state) : bool :=
  (String.length (snd st') <? String.length (snd st))%nat.

(** Iteration: every further round has to consume a character. *)
Fixpoint star_run (step : state -> list state) (fuel : nat) (st : state)
  : list state :=
  st :: match fuel with
        | O => []
        | S fuel' =>
            flat_map (star_run step fuel')
              (List.filter (shorter st) (step st))
        end.

Fixpoint run (r : regex) (st : state) : list state :=
  match r with
  | Eps => [st]
  | Chr cs =>
      match snd st with
      | String c s' => if cset_mem cs c then [(S (fst st), s')] else []
      | EmptyString => []
      end
  | Cat r1 r2 => flat_map (run r2) (run r1 st)
  | Alt r1 r2 => run r1 st ++ run r2 st
  | Star r' => star_run (run r') (String.length (snd st)) st
  | Bol => if (fst st =? 0)%nat then [st] else []
  | Eol =>
      match snd st with
      | EmptyString => [st]
      | String c EmptyString => if Ascii.eqb c newline then [st] else []
      | _ => []
      end
  end.

(** [re.match] looks for a match that starts at the first character;
    the match need not reach the end of the text. *)
Definition matches (r : regex) (s : string) : bool :=
  match run r (O, s) with
  | [] => false
  | _ :: _ => true
  end.

(** *** Compiling a pattern *)

(** [r{lo,hi}], with [hi = None] for no upper bound. *)
Fixpoint power (r : regex) (n : nat) (tail : regex) : regex :=
  match n with
  | O => tail
  | S n' => Cat r (power r n' tail)
  end.

Fixpoint upto (r : regex) (n : nat) : regex :=
  match n with
  | O => Eps
  | S n' => Alt (Cat r (upto r n')) Eps
  end.

Definition repeat (r : regex) (lo : nat) (hi : option nat) : regex :=
  power r lo (match hi with
              | None => Star r
              | Some h => upto r (h - lo)
              end).

(** A run of decimal digits: its value, [None] when the run is empty. *)
Fixpoint read_digits (acc : option nat) (s : string) : option nat * string :=
  match s with
  | String c s' =>
      if Py.is_digit c
      then read_digits
             (Some (10 * match acc with Some a => a | None => O end
                    + (Py.ord c - 48))%nat) s'
      else (acc, s)
  | EmptyString => (acc, s)
  end.

Inductive brace : Type :=
| BLiteral                                    (* the brace is a literal *)
| BQuant (lo : nat) (hi : option nat) (rest : string)
| BError.                                     (* min repeat above max *)

(** The text after an opening brace. *)
Definition parse_brace (s : string) : brace :=
  match s with
  | String "}" _ => BLiteral
  | _ =>
      let '(lo, s1) := read_digits None s in
      let '(hi, s2) :=
        match s1 with
        | String "," s1' => read_digits None s1'
        | _ => (lo, s1)
        end in
      match s2 with
      | String "}" rest =>
          let lo' := match lo with Some n => n | None => O end in
          match hi with
          | Some h => if (h <? lo')%nat then BError else BQuant lo' hi rest
          | None => BQuant lo' None rest
          end
      | _ => BLiteral
      end
  end.

(** The quantifier at the head of [s], if there is one. *)
Definition parse_quant (s : string)
  : option (option (nat * option nat) * string) :=
  match s with
  | String "*" rest => Some (Some (O, None), rest)
  | String "+" rest => Some (Some (1%nat, None), rest)
  | String "?" rest => Some (Some (O, Some 1%nat), rest)
  | String "{" rest =>
      match parse_brace rest with
      | BLiteral => Some (None, s)
      | BQuant lo hi rest' => Some (Some (lo, hi), rest')
      | BError => None
      end
  | _ => Some (None, s)
  end.

(** An atom with the quantifier that follows it.  An anchor cannot be
    repeated, and a quantifier cannot follow a quantifier. *)
Definition quantify (r : regex) (repeatable : bool) (s : string)
  : option (regex * string) :=
  match parse_quant s with
  | Some (None, _) => Some (r, s)
  | Some (Some (lo, hi), rest) =>
      if repeatable then
        let rest := match rest with
                    | String "?" rest' => rest'
                    | _ => rest
                    end in
        match parse_quant rest with
        | Some (None, _) => Some (repeat r lo hi, rest)
        | _ => None
        end
      else None
  | None => None
  end.

Definition is_ascii_alnum (c : ascii) : bool :=
  Py.in_range 48 57 c || Py.in_range 65 90 c || Py.in_range 97 122 c.

(** The text after a backslash. *)
Definition parse_escape (s : string) : option (citem * string) :=
  match s with
  | String c rest =>
      if Ascii.eqb c "d" then Some (IDigit, rest)
      else if Ascii.eqb c "D" then Some (INotDigit, rest)
      else if is_ascii_alnum c then None
      else Some (IChar c, rest)
  | EmptyString => None
  end.

Definition class_code (s : string) : option (citem * string) :=
  match s with
  | String "\" rest => parse_escape rest
  | String c rest => Some (IChar c, rest)
  | EmptyString => None
  end.

(** The members of a character class, up to the closing bracket, which
    is a member itself where it comes first. *)
Fixpoint parse_class (fuel : nat) (acc : list citem) (s : string)
  : option (list citem * string) :=
  match fuel with
  | O => None
  | S fuel' =>
      match s, acc with
      | EmptyString, _ => None
      | String "]" rest, _ :: _ => Some (rev acc, rest)
      | _, _ =>
          match class_code s with
          | Some (code1, String "-" EmptyString) => None
          | Some (code1, String "-" (String "]" rest)) =>
              Some (rev (IChar "-" :: code1 :: acc), rest)
          | Some (code1, String "-" rest) =>
              match code1, class_code rest with
              | IChar lo, Some (IChar hi, rest') =>
                  if (Py.ord hi <? Py.ord lo)%nat then None
                  else parse_class fuel' (IRange lo hi :: acc) rest'
              | _, _ => None
              end
          | Some (code1, rest) => parse_class fuel' (code1 :: acc) rest
          | None => None
          end
      end
  end.

Fixpoint parse_alt (fuel : nat) (s : string) {struct fuel}
  : option (regex * string) :=
  match fuel with
  | O => None
  | S fuel' =>
      match parse_seq fuel' s with
      | Some (r1, String "|" rest) =>
          match parse_alt fuel' rest with
          | Some (r2, rest') => Some (Alt r1 r2, rest')
          | None => None
          end
      | other => other
      end
  end

with parse_seq (fuel : nat) (s : string) {struct fuel}
  : option (regex * string) :=
  match fuel with
  | O => None
  | S fuel' =>
      match s with
      | EmptyString | String "|" _ | String ")" _ => Some (Eps, s)
      | _ =>
          match parse_atom fuel' s with
          | Some (r, repeatable, rest) =>
              match quantify r repeatable rest with
              | Some (r', rest') =>
                  match parse_seq fuel' rest' with
                  | Some (r2, rest2) => Some (Cat r' r2, rest2)
                  | None => None
                  end
              | None => None
              end
          | None => None
          end
      end
  end

with parse_atom (fuel : nat) (s : string) {struct fuel}
  : option (regex * bool * string) :=
  match fuel with
  | O => None
  | S fuel' =>
      match s with
      | EmptyString => None
      | String "(" rest =>
          let body := match rest with
                      | String "?" (String ":" rest') => Some rest'
                      | String "?" _ => None
                      | _ => Some rest
                      end in
          match body with
          | Some body' =>
              match parse_alt fuel' body' with
              | Some (r, String ")" rest') => Some (r, true, rest')
              | _ => None
              end
          | None => None
          end
      | String "[" rest =>
          let '(negated, rest) := match rest with
                                  | String "^" rest' => (true, rest')
                                  | _ => (false, rest)
                                  end in
          match parse_class fuel' [] rest with
          | Some (items, rest') => Some (Chr (Class negated items), true, rest')
          | None => None
          end
      | String "\" rest =>
          match parse_escape rest with
          | Some (i, rest') => Some (Chr (One i), true, rest')
          | None => None
          end
      | String "." rest => Some (Chr Any, true, rest)
      | String "^" rest => Some (Bol, false, rest)
      | String "$" rest => Some (Eol, false, rest)
      | String "*" _ | String "+" _ | String "?" _ => None
      | String "{" rest =>
          match parse_brace rest with
          | BLiteral => Some (Chr (One (IChar "{")), true, rest)
          | _ => None
          end
      | String c rest => Some (Chr (One (IChar c)), true, rest)
      end
  end.

Definition compile (pattern : string) : option regex :=
  match parse_alt (3 * String.length pattern + 4) pattern with
  | Some (r, EmptyString) => Some r
  | _ => None
  end.

(** [re.match(pattern, value)], as the truth value of its result. *)
Definition re_match (pattern value : string) : result bool :=
  match compile pattern with
  | Some r => Ok (matches r value)
  | None => Raise ReError
  end.

End Re.

(** ** Data model: a community definition document

    A definition is a JSON object; every key ["k"] of the object is the
    projection [key_k], [None] where the object has no such key. *)

Record field_def : Type := {
  key_name : option string;
  key_pattern : option string;
  key_length : option Z;
  key_description : option string
}.

Record local_def : Type := {
  key_format : option string;
  key_fields : option (list field_def)
}.

Record candidate : Type := {
  key_globaladmin : option Z;
  key_type : option Z;
  key_subtype : option Z;
  key_asn : option Z;
  key_asn4 : option Z;
  key_localadmin : option local_def;
  key_localdatapart1 : option local_def;
  key_localdatapart2 : option local_def
}.

(** The object under ["draft-ietf-grow-yang-bgp-communities:bgp-communities"]
    of a decoded document. *)
Record document : Type := {
  regular : list candidate;
  large : list candidate;
  extended : list candidate
}.

(** ** The class [BGPCommunityParser] *)

Record BGPCommunityParser : Type := {
  comm_regular : list candidate;
  comm_large : list candidate;
  comm_extended : list candidate;
  sources : list string
}.

(** The object right after [__init__] without sources. *)
Definition empty_parser : BGPCommunityParser :=
  {| comm_regular := []; comm_large := []; comm_extended := [];
     sources := [] |}.

(** [load_source]: [jdata] is the document that [source] decodes to. *)
Definition load_source (self : BGPCommunityParser) (source : string)
  (jdata : document) : BGPCommunityParser :=
  {| comm_regular := comm_regular self ++ regular jdata;
     comm_large := comm_large self ++ large jdata;
     comm_extended := comm_extended self ++ extended jdata;
     sources := sources self ++ [source] |}.

(** [_decimal2bits] *)
Definition _decimal2bits (decimal : string) (length : nat) : result string :=
  let! n := Py.int decimal in
  Ok (Py.format_0b n length).

(** ["format" in part and part["format"] == "binary"] *)
Definition format_is_binary (part : local_def) : bool :=
  match key_format part with
  | Some fmt => String.eqb fmt "binary"
  | None => false
  end.

(** The pattern test of one round of [_try_candidate_fields]: the anchors
    the pattern carries are taken off and put on again. *)
Definition reanchor (pattern : string) : string :=
  let pattern :=
    if Py.startswith pattern "^" then Py.drop_first pattern else pattern in
  let pattern :=
    if Py.endswith pattern "$" then Py.drop_last pattern else pattern in
  "^" ++ pattern ++ "$".

Definition match_field (cfield : field_def) (value : string) : result bool :=
  let! pattern := getitem (key_pattern cfield) in
  Re.re_match (reanchor pattern) value.

(** [_try_candidate_fields]: the loop, from cursor [pos] on. *)
Fixpoint try_fields_from (pos : Z) (content : string)
  (cfields : list field_def) : result bool :=
  match cfields with
  | [] => Ok true
  | cfield :: cfields' =>
      let value :=
        match key_length cfield with
        | Some l => Py.slice content pos (pos + l)
        | None => content
        end in
      let! m := match_field cfield value in
      if negb m then Ok false
      else
        let pos :=
          match key_length cfield with
          | Some l => pos + l
          | None => pos
          end in
        try_fields_from pos content cfields'
  end.

Definition _try_candidate_fields (content : string)
  (cfields : list field_def) : result bool :=
  try_fields_from 0 content cfields.

(** [_try_candidates_regular]; the result [False] of the source is
    [None].  The variable [content] is assigned inside the loop and keeps
    its value from one round to the next. *)
Fixpoint _try_candidates_regular (asn content : string)
  (candidates : list candidate) : result (option candidate) :=
  match candidates with
  | [] => Ok None
  | candidate :: candidates' =>
      let! globaladmin := getitem (key_globaladmin candidate) in
      if negb (String.eqb asn (Py.str globaladmin))
      then _try_candidates_regular asn content candidates'
      else
        let! localadmin := getitem (key_localadmin candidate) in
        let! content :=
          if format_is_binary localadmin then _decimal2bits content 16
          else Ok content in
        let! cfields := getitem (key_fields localadmin) in
        let! ok := _try_candidate_fields content cfields in
        if ok then Ok (Some candidate)
        else _try_candidates_regular asn content candidates'
  end.

(** [_try_candidates_large]; [content1] and [content2] are loop-carried
    in the same way. *)
Fixpoint _try_candidates_large (asn content1 content2 : string)
  (candidates : list candidate) : result (option candidate) :=
  match candidates with
  | [] => Ok None
  | candidate :: candidates' =>
      let! globaladmin := getitem (key_globaladmin candidate) in
      if negb (String.eqb asn (Py.str globaladmin))
      then _try_candidates_large asn content1 content2 candidates'
      else
        let! part1 := getitem (key_localdatapart1 candidate) in
        let! content1 :=
          if format_is_binary part1 then _decimal2bits content1 32
          else Ok content1 in
        let! part2 := getitem (key_localdatapart2 candidate) in
        let! content2 :=
          if format_is_binary part2 then _decimal2bits content2 32
          else Ok content2 in
        let! cfields1 := getitem (key_fields part1) in
        let! ok1 := _try_candidate_fields content1 cfields1 in
        if ok1 then
          let! cfields2 := getitem (key_fields part2) in
          let! ok2 := _try_candidate_fields content2 cfields2 in
          if ok2 then Ok (Some candidate)
          else _try_candidates_large asn content1 content2 candidates'
        else _try_candidates_large asn content1 content2 candidates'
  end.

(** The administrator test of [_try_candidates_extended]: [asn] goes
    first, [asn4] is looked at only without it, and a candidate with
    neither is passed over. *)
Definition extended_admin_ok (asn : string) (candidate : candidate) : bool :=
  match key_asn candidate with
  | Some a => String.eqb asn (Py.str a)
  | None =>
      match key_asn4 candidate with
      | Some a4 => String.eqb asn (Py.str a4)
      | None => false
      end
  end.

(** [_try_candidates_extended]; [contentstring] starts from [content]
    again in every round. *)
Fixpoint _try_candidates_extended (extype exsubtype asn content : string)
  (candidates : list candidate) : result (option candidate) :=
  match candidates with
  | [] => Ok None
  | candidate :: candidates' =>
      let contentstring := content in
      let! t := Py.int_of 16 extype in
      let! ctype := getitem (key_type candidate) in
      if negb (t =? ctype)
      then _try_candidates_extended extype exsubtype asn content candidates'
      else
        let! st := Py.int_of 16 exsubtype in
        let! csubtype := getitem (key_subtype candidate) in
        if negb (st =? csubtype)
        then _try_candidates_extended extype exsubtype asn content candidates'
        else if negb (extended_admin_ok asn candidate)
        then _try_candidates_extended extype exsubtype asn content candidates'
        else
          let! localadmin := getitem (key_localadmin candidate) in
          let! contentstring :=
            if format_is_binary localadmin then
              match key_asn4 candidate with
              | Some _ => _decimal2bits content 16
              | None => _decimal2bits content 32
              end
            else Ok contentstring in
          let! cfields := getitem (key_fields localadmin) in
          let! ok := _try_candidate_fields contentstring cfields in
          if ok then Ok (Some candidate)
          else _try_candidates_extended extype exsubtype asn content
                 candidates'
  end.

(** The slicing loop of [_candidate2fields] and of both halves of
    [_candidate2fields_large]: field number [fid] of the part goes to key
    [foffset + fid]. *)
Fixpoint slice_fields (contentbits : string) (foffset fid : nat) (pos : Z)
  (flds : list field_def) (fields : gmap nat string) : gmap nat string :=
  match flds with
  | [] => fields
  | field :: flds' =>
      let length :=
        match key_length field with
        | Some l => l
        | None => Py.len contentbits
        end in
      let fields :=
        <[(foffset + fid)%nat := Py.slice contentbits pos (pos + length)]>
          fields in
      slice_fields contentbits foffset (S fid) (pos + length) flds' fields
  end.

(** [_candidate2fields] *)
Definition _candidate2fields (contentbits : string) (clocaladmin : local_def)
  : result (gmap nat string) :=
  let fields : gmap nat string := ∅ in
  let pos := 0 in
  let! contentbits :=
    if format_is_binary clocaladmin then _decimal2bits contentbits 16
    else Ok contentbits in
  let! flds := getitem (key_fields clocaladmin) in
  Ok (slice_fields contentbits 0 0 pos flds fields).

(** [_candidate2fields_large] *)
Definition _candidate2fields_large (contentbits1 contentbits2 : string)
  (clocaldatapart1 clocaldatapart2 : local_def) : result (gmap nat string) :=
  let fields : gmap nat string := ∅ in
  let! contentbits1 :=
    if format_is_binary clocaldatapart1 then _decimal2bits contentbits1 32
    else Ok contentbits1 in
  let! contentbits2 :=
    if format_is_binary clocaldatapart2 then _decimal2bits contentbits2 32
    else Ok contentbits2 in
  let! flds1 := getitem (key_fields clocaldatapart1) in
  let fields := slice_fields contentbits1 0 0 0 flds1 fields in
  let foffset := List.length flds1 in
  let! flds2 := getitem (key_fields clocaldatapart2) in
  Ok (slice_fields contentbits2 foffset 0 0 flds2 fields).

(** One comma-separated section of [_print_match]: [name=description]
    where the field has a description, [name=value] otherwise. *)
Fixpoint output_fields (fieldvals : gmap nat string) (offset fid : nat)
  (flds : list field_def) : result (list string) :=
  match flds with
  | [] => Ok []
  | field :: flds' =>
      let! name := getitem (key_name field) in
      let! text :=
        match key_description field with
        | Some description => Ok (name ++ "=" ++ description)
        | None =>
            let! value := getitem (fieldvals !! (offset + fid)%nat) in
            Ok (name ++ "=" ++ value)
        end in
      let! others := output_fields fieldvals offset (S fid) flds' in
      Ok (text :: others)
  end.

(** [_print_match] *)
Definition _print_match (community : string) (candidate : candidate)
  (fieldvals : gmap nat string) : result string :=
  let asn :=
    match key_asn4 candidate, key_asn candidate, key_globaladmin candidate with
    | Some v, _, _ => Some v
    | None, Some v, _ => Some v
    | None, None, v => v
    end in
  let! output_sections :=
    match key_localadmin candidate, key_localdatapart1 candidate with
    | Some localadmin, _ =>
        let! flds := getitem (key_fields localadmin) in
        let! fs := output_fields fieldvals 0 0 flds in
        Ok [Py.join "," fs]
    | None, Some part1 =>
        let! flds1 := getitem (key_fields part1) in
        let! fs1 := output_fields fieldvals 0 0 flds1 in
        let offset := List.length flds1 in
        let! part2 := getitem (key_localdatapart2 candidate) in
        let! flds2 := getitem (key_fields part2) in
        let! fs2 := output_fields fieldvals offset 0 flds2 in
        Ok [Py.join "," fs1; Py.join "," fs2]
    | None, None => Ok []
    end in
  match asn with
  | Some v => Ok (Py.str v ++ ":" ++ Py.join ":" output_sections)
  | None => Raise UnboundLocalError
  end.

(** [parse_regular_community]; the result [None] of the source is [None]. *)
Definition parse_regular_community (self : BGPCommunityParser)
  (community : string) : result (option string) :=
  match Py.split ":" 1 community with
  | [asn; content] =>
      let! found := _try_candidates_regular asn content (comm_regular self) in
      match found with
      | Some found =>
          let! localadmin := getitem (key_localadmin found) in
          let! fieldvals := _candidate2fields content localadmin in
          let! text := _print_match community found fieldvals in
          Ok (Some text)
      | None => Ok None
      end
  | _ => Raise ValueError
  end.

(** [parse_large_community] *)
Definition parse_large_community (self : BGPCommunityParser)
  (community : string) : result (option string) :=
  match Py.split ":" 2 community with
  | [asn; content1; content2] =>
      let! found :=
        _try_candidates_large asn content1 content2 (comm_large self) in
      match found with
      | Some found =>
          let! part1 := getitem (key_localdatapart1 found) in
          let! part2 := getitem (key_localdatapart2 found) in
          let! fieldvals :=
            _candidate2fields_large content1 content2 part1 part2 in
          let! text := _print_match community found fieldvals in
          Ok (Some text)
      | None => Ok None
      end
  | _ => Raise ValueError
  end.

(** [parse_extended_community] *)
Definition parse_extended_community (self : BGPCommunityParser)
  (community : string) : result (option string) :=
  match Py.split ":" 3 community with
  | [extype; exsubtype; asn; content] =>
      let! found :=
        _try_candidates_extended extype exsubtype asn content
          (comm_extended self) in
      match found with
      | Some found =>
          let! localadmin := getitem (key_localadmin found) in
          let! fieldvals := _candidate2fields content localadmin in
          let! text := _print_match community found fieldvals in
          Ok (Some text)
      | None => Ok None
      end
  | _ => Raise ValueError
  end.

(** [parse_community] *)
Definition parse_community (self : BGPCommunityParser) (community : string)
  : result (option string) :=
  let! regular_shape := Re.re_match "^\d+:\d+$" community in
  if regular_shape then parse_regular_community self community
  else
    let! large_shape := Re.re_match "^\d+:\d+:\d+$" community in
    if large_shape then parse_large_community self community
    else
      let! extended_shape :=
        Re.re_match "^0x\d\d:0x\d\d:\d+:\d+$" community in
      if extended_shape then parse_extended_community self community
      else Ok None.

(** ** Sample definitions

    Small community definitions, used to run the methods on. *)

Definition mk_field (name pattern : string) (length : option Z)
  (description : option string) : field_def :=
  {| key_name := Some name; key_pattern := Some pattern;
     key_length := length; key_description := description |}.

Definition mk_local (format : option string) (flds : list field_def)
  : local_def :=
  {| key_format := format; key_fields := Some flds |}.

Definition mk_regular (globaladmin : Z) (localadmin : local_def) : candidate :=
  {| key_globaladmin := Some globaladmin; key_type := None;
     key_subtype := None; key_asn := None; key_asn4 := None;
     key_localadmin := Some localadmin;
     key_localdatapart1 := None; key_localdatapart2 := None |}.

Definition mk_large (globaladmin : Z) (part1 part2 : local_def) : candidate :=
  {| key_globaladmin := Some globaladmin; key_type := None;
     key_subtype := None; key_asn := None; key_asn4 := None;
     key_localadmin := None;
     key_localdatapart1 := Some part1; key_localdatapart2 := Some part2 |}.

Definition mk_extended (type subtype : Z) (asn asn4 : option Z)
  (localadmin : local_def) : candidate :=
  {| key_globaladmin := None; key_type := Some type;
     key_subtype := Some subtype; key_asn := asn; key_asn4 := asn4;
     key_localadmin := Some localadmin;
     key_localdatapart1 := None; key_localdatapart2 := None |}.

Definition mk_document (r l e : list candidate) : document :=
  {| regular := r; large := l; extended := e |}.

(** A parser that holds the given lists, as loading leaves it. *)
Definition mk_parser (r l e : list candidate) : BGPCommunityParser :=
  {| comm_regular := r; comm_large := l; comm_extended := e; sources := [] |}.

(** Regular, binary: one field that no string of binary digits fits. *)
Definition regular_binary_never : candidate :=
  mk_regular 65000 (mk_local (Some "binary") [mk_field "none" "x" None None]).

(** Regular, decimal: the local value has to be the digit 5. *)
Definition regular_decimal_five : candidate :=
  mk_regular 65000 (mk_local None [mk_field "v" "5" None None]).

(** Regular, decimal: the local value has to be these sixteen digits. *)
Definition regular_decimal_bits : candidate :=
  mk_regular 65000
    (mk_local None [mk_field "f" "0000000000000101" None None]).

(** Regular, decimal: a one-character field and a field without length. *)
Definition fields_one_then_zeros : list field_def :=
  [mk_field "a" "1" (Some 1) None; mk_field "b" "0+" None None].

Definition regular_one_then_zeros : candidate :=
  mk_regular 65000 (mk_local None fields_one_then_zeros).

(** Large: the second part is binary and fits nothing; and a decimal one. *)
Definition large_binary_never : candidate :=
  mk_large 65000 (mk_local None [mk_field "p" "\d+" None None])
    (mk_local (Some "binary") [mk_field "none" "x" None None]).

Definition large_decimal_seven : candidate :=
  mk_large 65000 (mk_local None [mk_field "p" "\d+" None None])
    (mk_local None [mk_field "q" "7" None None]).

(** Extended with a two-octet administrator ([asn] only), binary: the
    upper and the lower sixteen binary digits of the local value. *)
Definition fields_hi_lo : list field_def :=
  [mk_field "hi" "0+" (Some 16) None; mk_field "lo" "[01]+" (Some 16) None].

Definition extended_asn_hi_lo : candidate :=
  mk_extended 0 2 (Some 65000) None (mk_local (Some "binary") fields_hi_lo).

(** Extended, binary, one field that takes exactly 32 binary digits
    ([asn] only), and one that takes exactly 16 ([asn4] only). *)
Definition extended_asn_32 : candidate :=
  mk_extended 0 2 (Some 65000) None
    (mk_local (Some "binary") [mk_field "v" "[01]{32}" None None]).

Definition extended_asn4_16 : candidate :=
  mk_extended 2 2 None (Some 70000)
    (mk_local (Some "binary") [mk_field "v" "[01]{16}" None None]).

(** Extended, decimal, with hexadecimal letters in the type octet. *)
Definition extended_type_ab : candidate :=
  mk_extended 171 1 (Some 1) None
    (mk_local None [mk_field "v" "\d+" None None]).



(** A document whose regular list the second load makes match. *)
Definition document_bits_then_binary : document :=
  mk_document [regular_decimal_bits; regular_binary_never] [] [].

(** ** Vocabulary of the properties *)

(** The number of occurrences of a character. *)
Fixpoint count (c : ascii) (s : string) : nat :=
  match s with
  | EmptyString => O
  | String d s' => if Ascii.eqb d c then S (count c s') else count c s'
  end.

Fixpoint all_digits (s : string) : bool :=
  match s with
  | EmptyString => true
  | String c s' => Py.is_digit c && all_digits s'
  end.

(** A non-negative decimal numeral: one decimal digit or more. *)
Definition is_numeral (s : string) : bool :=
  match s with
  | EmptyString => false
  | String _ _ => all_digits s
  end.

(** The number a run of decimal digits denotes in a base, by Horner's
    rule. *)
Fixpoint digits_value (base acc : N) (s : string) : N :=
  match s with
  | EmptyString => acc
  | String c s' =>
      digits_value base (acc * base + N.of_nat (Py.ord c - 48))%N s'
  end.

Definition numeral_value (s : string) : N := digits_value 10 0 s.

(** The number a run of binary digits denotes; [None] when a character
    is neither [0] nor [1]. *)
Fixpoint bits_value (acc : N) (s : string) : option N :=
  match s with
  | EmptyString => Some acc
  | String c s' =>
      if Ascii.eqb c "0" then bits_value (2 * acc)%N s'
      else if Ascii.eqb c "1" then bits_value (2 * acc + 1)%N s'
      else None
  end.

(** [b] is the binary representation of [n]: binary digits that denote
    [n], at least one, and no leading zero except for the numeral [0]. *)
Definition binary_representation (n : N) (b : string) : Prop :=
  bits_value 0 b = Some n /\ b <> "" /\ (Py.startswith b "0" = true -> b = "0").

(** The values the rounds of [_try_candidate_fields] test, one for each
    field, when every round is run. *)
Fixpoint tested_values (pos : Z) (content : string)
  (cfields : list field_def) : list string :=
  match cfields with
  | [] => []
  | cfield :: cfields' =>
      match key_length cfield with
      | Some l =>
          Py.slice content pos (pos + l)
          :: tested_values (pos + l) content cfields'
      | None => content :: tested_values pos content cfields'
      end
  end.

(** The claim C3 in its words: a field without [length] is tested on
    [content[pos:]]. *)
Fixpoint claimed_tested_values (pos : Z) (content : string)
  (cfields : list field_def) : list string :=
  match cfields with
  | [] => []
  | cfield :: cfields' =>
      match key_length cfield with
      | Some l =>
          Py.slice content pos (pos + l)
          :: claimed_tested_values (pos + l) content cfields'
      | None =>
          Py.slice content pos (Py.len content)
          :: claimed_tested_values pos content cfields'
      end
  end.

(** Fields tested one after the other on given values, up to the first
    failure. *)
Fixpoint match_values (cfields : list field_def) (values : list string)
  : result bool :=
  match cfields, values with
  | cfield :: cfields', value :: values' =>
      let! m := match_field cfield value in
      if negb m then Ok false else match_values cfields' values'
  | _, _ => Ok true
  end.

(** The claim C1 in its words: width 16 where the definition declares
    [asn], width 32 where it declares [asn4]. *)
Definition claimed_extended_width (c : candidate) : nat :=
  match key_asn c with
  | Some _ => 16%nat
  | None => 32%nat
  end.


(** *** Well-formed definitions

    A field has a name and a pattern that compiles once it is anchored
    again; a local part has its list of fields; a definition has the keys
    of its kind, and a large definition has no [localadmin] of its own. *)

Definition wf_field (f : field_def) : bool :=
  match key_name f, key_pattern f with
  | Some _, Some pattern =>
      match Re.compile (reanchor pattern) with
      | Some _ => true
      | None => false
      end
  | _, _ => false
  end.

Definition wf_local (part : local_def) : bool :=
  match key_fields part with
  | Some flds => forallb wf_field flds
  | None => false
  end.


Definition wf_large (c : candidate) : bool :=
  match key_globaladmin c, key_localadmin c,
        key_localdatapart1 c, key_localdatapart2 c with
  | Some _, None, Some part1, Some part2 => wf_local part1 && wf_local part2
  | _, _, _, _ => false
  end.




(** The three shapes [parse_community] tests, as [Re.compile] reads
    them. *)
Definition digit : Re.regex := Re.Chr (Re.One Re.IDigit).
Definition digits1 : Re.regex := Re.Cat digit (Re.Star digit).
Definition lit (c : ascii) : Re.regex := Re.Chr (Re.One (Re.IChar c)).
Definition at_end : Re.regex := Re.Cat Re.Eol Re.Eps.

Definition regular_shape : Re.regex :=
  Re.Cat Re.Bol (Re.Cat digits1 (Re.Cat (lit ":") (Re.Cat digits1 at_end))).

Definition large_shape : Re.regex :=
  Re.Cat Re.Bol
    (Re.Cat digits1
       (Re.Cat (lit ":")
          (Re.Cat digits1 (Re.Cat (lit ":") (Re.Cat digits1 at_end))))).

Definition octet (r : Re.regex) : Re.regex :=
  Re.Cat (lit "0") (Re.Cat (lit "x") (Re.Cat digit (Re.Cat digit r))).

Definition extended_shape : Re.regex :=
  Re.Cat Re.Bol
    (octet
       (Re.Cat (lit ":")
          (octet
             (Re.Cat (lit ":")
                (Re.Cat digits1 (Re.Cat (lit ":") (Re.Cat digits1 at_end))))))).

(** *** The forms of a community text *)

(** What may follow the last numeral: nothing, or one line feed. *)
Definition line_end (tail : string) : Prop :=
  tail = "" \/ tail = String Re.newline "".

(** [0x] and two decimal digits. *)
Definition is_octet (o : string) : Prop :=
  exists d1 d2,
    o = String "0" (String "x" (String d1 (String d2 ""))) /\
    Py.is_digit d1 = true /\ Py.is_digit d2 = true.

Definition regular_form (s : string) : Prop :=
  exists a b tail,
    s = a ++ String ":" (b ++ tail) /\
    is_numeral a = true /\ is_numeral b = true /\ line_end tail.

Definition large_form (s : string) : Prop :=
  exists a b c tail,
    s = a ++ String ":" (b ++ String ":" (c ++ tail)) /\
    is_numeral a = true /\ is_numeral b = true /\ is_numeral c = true /\
    line_end tail.

Definition extended_form (s : string) : Prop :=
  exists o1 o2 a b tail,
    s = o1 ++ String ":" (o2 ++ String ":" (a ++ String ":" (b ++ tail))) /\
    is_octet o1 /\ is_octet o2 /\
    is_numeral a = true /\ is_numeral b = true /\ line_end tail.

(** A definition of another administrator: it has a [globaladmin], and
    that is not the administrator looked for. *)
Definition other_admin (asn : string) (c : candidate) : Prop :=
  exists g : Z, key_globaladmin c = Some g /\ Py.str g <> asn.

(** A regular definition whose local administrator, if it has one, is
    not binary; a large definition whose two parts, as far as it has
    them, are not binary. *)
Definition decimal_regular (c : candidate) : Prop :=
  forall la, key_localadmin c = Some la -> format_is_binary la = false.

Definition decimal_large (c : candidate) : Prop :=
  (forall p, key_localdatapart1 c = Some p -> format_is_binary p = false) /\
  (forall p, key_localdatapart2 c = Some p -> format_is_binary p = false).

(** *** The segments extraction cuts *)

(** The number of characters a field takes in extraction: its [length],
    or the length of the whole content where it has none. *)
Definition field_width (contentbits : string) (field : field_def) : Z :=
  match key_length field with
  | Some l => l
  | None => Py.len contentbits
  end.

(** The slices the loop of [_candidate2fields] stores, in field order,
    from cursor [pos] on. *)
Fixpoint segments (contentbits : string) (pos : Z) (flds : list field_def)
  : list string :=
  match flds with
  | [] => []
  | field :: flds' =>
      Py.slice contentbits pos (pos + field_width contentbits field)
      :: segments contentbits (pos + field_width contentbits field) flds'
  end.

Fixpoint total_width (contentbits : string) (flds : list field_def) : Z :=
  match flds with
  | [] => 0
  | field :: flds' =>
      field_width contentbits field + total_width contentbits flds'
  end.

(** *** Construction and description of the parser *)

(** [__init__]: every source comes with the document it decodes to; the
    sources are loaded in the order given. *)
Definition __init__ (srcs : list (string * document)) : BGPCommunityParser :=
  fold_left (fun self sd => load_source self (fst sd) (snd sd))
    srcs empty_parser.

(** [__str__] *)
Definition __str__ (self : BGPCommunityParser) : string :=
  "BGPCommunityParser object with "
  ++ Py.str (Z.of_nat (List.length (sources self))) ++ " sources, "
  ++ Py.str (Z.of_nat (List.length (comm_regular self))) ++ " regular, "
  ++ Py.str (Z.of_nat (List.length (comm_large self))) ++ " large and "
  ++ Py.str (Z.of_nat (List.length (comm_extended self))) ++ " communities".

(** Every field of the parts that [_print_match] renders has a
    description. *)
Definition described (flds : list field_def) : Prop :=
  Forall (fun f => key_description f <> None) flds.

Definition all_described (c : candidate) : Prop :=
  match key_localadmin c with
  | Some la => forall flds, key_fields la = Some flds -> described flds
  | None =>
      (forall p flds, key_localdatapart1 c = Some p ->
                      key_fields p = Some flds -> described flds) /\
      (forall p flds, key_localdatapart2 c = Some p ->
                      key_fields p = Some flds -> described flds)
  end.

(** Every character of a text is in a set of characters. *)
Fixpoint all_in (cs : Re.cset) (w : string) : bool :=
  match w with
  | EmptyString => true
  | String c w' => Re.cset_mem cs c && all_in cs w'
  end.

(** The class [[01]]. *)
Definition binary_class : Re.cset :=
  Re.Class false [Re.IChar "0"; Re.IChar "1"].

(** An extended definition of another type: it has a [type], and that is
    not the number looked for. *)
Definition other_type (t : Z) (c : candidate) : Prop :=
  exists ct : Z, key_type c = Some ct /\ ct <> t.

(** The claim C9 in its words: the required keys are present and the
    patterns are valid.  A large definition may then carry a
    [localadmin] of its own as well, with valid fields. *)
Definition claimed_wf_large (c : candidate) : bool :=
  match key_globaladmin c, key_localdatapart1 c, key_localdatapart2 c with
  | Some _, Some part1, Some part2 =>
      wf_local part1 && wf_local part2
      && match key_localadmin c with
         | Some localadmin => wf_local localadmin
         | None => true
         end
  | _, _, _ => false
  end.


(** * Properties *)

(** ** The interpreter primitives on examples *)

Example int_examples :
  Py.int "5" = Ok 5 /\ Py.int " 12_000
" = Ok 12000 /\ Py.int "-7" = Ok (-7) /\
  Py.int "" = Raise ValueError /\ Py.int "1__0" = Raise ValueError /\
  Py.int "5x" = Raise ValueError /\
  Py.int_of 16 "0x1f" = Ok 31 /\ Py.int_of 16 "0xAB" = Ok 171 /\
  Py.int_of 16 "12" = Ok 18 /\ Py.int_of 16 "0x" = Raise ValueError.
Proof. repeat split; reflexivity. Qed.

Example str_examples :
  Py.str 65000 = "65000" /\ Py.str 0 = "0" /\ Py.str (-3) = "-3".
Proof. repeat split; reflexivity. Qed.

Example format_examples :
  Py.format_0b 5 8 = "00000101" /\ Py.format_0b 300 8 = "100101100" /\
  Py.format_0b 0 4 = "0000" /\ Py.format_0b (-5) 8 = "-0000101" /\
  Py.format_0b 5 0 = "101".
Proof. repeat split; reflexivity. Qed.

Example slice_examples :
  Py.slice "abcdef" 1 3 = "bc" /\ Py.slice "abcdef" 4 10 = "ef" /\
  Py.slice "abcdef" 7 9 = "" /\ Py.slice "abcdef" (-2) 6 = "ef" /\
  Py.slice "abcdef" 3 1 = "" /\ Py.slice "abcdef" 0 (-1) = "abcde" /\
  Py.drop_first "^ab" = "ab" /\ Py.drop_last "ab$" = "ab".
Proof. repeat split; reflexivity. Qed.

Example split_examples :
  Py.split ":" 1 "65000:1:2" = ["65000"; "1:2"] /\
  Py.split ":" 2 "65000:1:2" = ["65000"; "1"; "2"] /\
  Py.split ":" 1 "65000" = ["65000"] /\
  Py.split ":" 3 "a:b::c:d" = ["a"; "b"; ""; "c:d"] /\
  Py.split ":" 1 "" = [""].
Proof. repeat split; reflexivity. Qed.


(** ** Facts about the primitives *)

Lemma split_length (sep : ascii) (s : string) :
  forall k, List.length (Py.split sep k s) = S (Nat.min k (count sep s)).
Proof.
  induction s as [| c s IH]; intros k.
  - simpl. now rewrite Nat.min_0_r.
  - destruct k as [| k]; [reflexivity |].
    cbn [Py.split count].
    destruct (Ascii.eqb c sep) eqn:E.
    + cbn [List.length]. rewrite IH. now rewrite <- Nat.succ_min_distr.
    + specialize (IH (S k)).
      destruct (Py.split sep (S k) s) as [| h t]; [discriminate IH |].
      exact IH.
Qed.

Lemma split_too_few (sep : ascii) (k : nat) (s : string) :
  (count sep s < k)%nat -> List.length (Py.split sep k s) <> S k.
Proof. intros H. rewrite split_length. lia. Qed.

(** C10: each kind-specific entry point raises [ValueError], and does not
    return the no-match value, on a text with fewer colons than the kind
    has separators: none for a regular community, fewer than two for a
    large one, fewer than three for an extended one. *)
Theorem C10_entry_points_raise_on_missing_colons
  (self : BGPCommunityParser) (community : string) :
  ((count ":" community < 1)%nat ->
   parse_regular_community self community = Raise ValueError) /\
  ((count ":" community < 2)%nat ->
   parse_large_community self community = Raise ValueError) /\
  ((count ":" community < 3)%nat ->
   parse_extended_community self community = Raise ValueError).
Proof.
  repeat split; intros H.
  - apply (split_too_few ":" 1) in H.
    unfold parse_regular_community.
    destruct (Py.split ":" 1 community) as [| a [| b [| c l]]];
      try reflexivity.
    now elim H.
  - apply (split_too_few ":" 2) in H.
    unfold parse_large_community.
    destruct (Py.split ":" 2 community) as [| a [| b [| c [| d l]]]];
      try reflexivity.
    now elim H.
  - apply (split_too_few ":" 3) in H.
    unfold parse_extended_community.
    destruct (Py.split ":" 3 community) as [| a [| b [| c [| d [| e l]]]]];
      try reflexivity.
    now elim H.
Qed.

Lemma C10_entry_points_raise_witness :
  parse_regular_community empty_parser "65000" = Raise ValueError /\
  parse_large_community empty_parser "65000:1" = Raise ValueError /\
  parse_extended_community empty_parser "0x00:0x02:65000" = Raise ValueError.
Proof.
  split; [| split].
  - apply (proj1 (C10_entry_points_raise_on_missing_colons
                    empty_parser "65000")).
    simpl. lia.
  - apply (proj1 (proj2 (C10_entry_points_raise_on_missing_colons
                           empty_parser "65000:1"))).
    simpl. lia.
  - apply (proj2 (proj2 (C10_entry_points_raise_on_missing_colons
                           empty_parser "0x00:0x02:65000"))).
    simpl. lia.
Defined.

(** *** Numerals and [int] *)

Ltac ascii_cases c := destruct c as [[] [] [] [] [] [] [] []].

Lemma digit_facts (c : ascii) :
  Py.is_digit c = true ->
  Py.is_space c = false /\ Ascii.eqb c "_" = false /\
  Ascii.eqb c "-" = false /\ Ascii.eqb c "+" = false /\
  Ascii.eqb c "x" = false /\ Ascii.eqb c "X" = false /\
  Ascii.eqb c ":" = false /\
  Py.digit_value c = N.of_nat (Py.ord c - 48) /\
  (Py.digit_value c <? 10)%N = true.
Proof.
  ascii_cases c; intros H; try discriminate H; vm_compute;
    repeat split; reflexivity.
Qed.

Lemma space_facts (c : ascii) :
  Py.is_space c = true ->
  Ascii.eqb c "_" = false /\ Py.digit_value c = 36%N.
Proof.
  ascii_cases c; intros H; try discriminate H; vm_compute;
    repeat split; reflexivity.
Qed.

Lemma digit_of_base (base : N) (c : ascii) :
  (10 <= base)%N -> Py.is_digit c = true -> Py.is_digit_of base c = true.
Proof.
  intros Hb Hc. destruct (digit_facts c Hc) as (_ & _ & _ & _ & _ & _ & _ & _ & H).
  unfold Py.is_digit_of. apply N.ltb_lt in H. apply N.ltb_lt. lia.
Qed.

Lemma space_not_digit (base : N) (c : ascii) :
  (base <= 36)%N -> Py.is_space c = true -> Py.is_digit_of base c = false.
Proof.
  intros Hb Hc. destruct (space_facts c Hc) as [_ H].
  unfold Py.is_digit_of. rewrite H. apply N.ltb_ge. exact Hb.
Qed.

(** A run of digits followed by white space is read to its end. *)
Lemma scan_digits_run (base : N) (s rest : string) :
  (10 <= base <= 36)%N -> all_digits s = true -> Py.all_space rest = true ->
  forall acc,
    Py.scan_digits base acc (s ++ rest) = Some (digits_value base acc s, rest).
Proof.
  intros Hb. induction s as [| c s IH]; intros Hs Hr acc.
  - cbn [String.append digits_value].
    destruct rest as [| c rest]; [reflexivity |].
    cbn [Py.all_space] in Hr. apply andb_prop in Hr as [Hc _].
    cbn [Py.scan_digits].
    destruct (space_facts c Hc) as [-> _].
    now rewrite (space_not_digit base c (proj2 Hb) Hc).
  - cbn [all_digits] in Hs. apply andb_prop in Hs as [Hc Hs].
    cbn [String.append Py.scan_digits digits_value].
    destruct (digit_facts c Hc) as (_ & -> & _ & _ & _ & _ & _ & -> & _).
    rewrite (digit_of_base base c (proj1 Hb) Hc).
    now apply IH.
Qed.

(** [int] reads a numeral, also when white space follows it. *)
Lemma int_numeral (v rest : string) :
  is_numeral v = true -> Py.all_space rest = true ->
  Py.int (v ++ rest) = Ok (Z.of_N (numeral_value v)).
Proof.
  destruct v as [| c v]; [discriminate |].
  cbn [is_numeral all_digits]. intros Hv Hr.
  apply andb_prop in Hv as [Hc Hv].
  destruct (digit_facts c Hc) as (Hsp & _ & Hm & Hp & Hx & HX & _ & Hd & _).
  unfold Py.int, Py.int_of. cbn [String.append Py.lstrip]. rewrite Hsp.
  assert (Hsign :
    (match String c (v ++ rest) with
     | String "-" s' => (true, s')
     | String "+" s' => (false, s')
     | _ => (false, String c (v ++ rest))
     end) = (false, String c (v ++ rest))).
  { ascii_cases c; try reflexivity; discriminate. }
  rewrite Hsign.
  assert (Hpre : Py.strip_prefix 10 (String c (v ++ rest))
                 = String c (v ++ rest)).
  { unfold Py.strip_prefix. ascii_cases c; try reflexivity.
    destruct (v ++ rest); reflexivity. }
  rewrite Hpre. unfold Py.int_magnitude.
  rewrite (digit_of_base 10 c ltac:(lia) Hc).
  rewrite (scan_digits_run 10 v rest ltac:(lia) Hv Hr), Hr.
  unfold numeral_value. cbn [digits_value]. now rewrite Hd.
Qed.

(** *** Binary digits and [format] *)

Lemma bits_value_snoc (s : string) (c : ascii) :
  forall acc,
    bits_value acc (s ++ String c "") =
    match bits_value acc s with
    | Some v =>
        if Ascii.eqb c "0" then Some (2 * v)%N
        else if Ascii.eqb c "1" then Some (2 * v + 1)%N
        else None
    | None => None
    end.
Proof.
  induction s as [| d s IH]; intros acc; cbn [String.append bits_value].
  - reflexivity.
  - destruct (Ascii.eqb d "0"); [apply IH |].
    destruct (Ascii.eqb d "1"); [apply IH | reflexivity].
Qed.

Lemma bits_value_bin_pos (p : positive) :
  bits_value 0 (Py.bin_pos p) = Some (Npos p).
Proof.
  induction p as [p IH | p IH |]; cbn [Py.bin_pos].
  - rewrite bits_value_snoc, IH. reflexivity.
  - rewrite bits_value_snoc, IH. reflexivity.
  - reflexivity.
Qed.

Lemma startswith_app (s t : string) (c : ascii) :
  s <> "" -> Py.startswith (s ++ t) c = Py.startswith s c.
Proof. destruct s; [congruence | reflexivity]. Qed.

Lemma bin_pos_leading_one (p : positive) :
  Py.bin_pos p <> "" /\ Py.startswith (Py.bin_pos p) "1" = true.
Proof.
  induction p as [p [IH1 IH2] | p [IH1 IH2] |]; cbn [Py.bin_pos].
  - split; [destruct (Py.bin_pos p); [congruence | discriminate] |].
    now rewrite startswith_app.
  - split; [destruct (Py.bin_pos p); [congruence | discriminate] |].
    now rewrite startswith_app.
  - split; [discriminate | reflexivity].
Qed.

Lemma bin_is_binary_representation (n : N) :
  binary_representation n (Py.bin n).
Proof.
  destruct n as [| p]; cbn [Py.bin].
  - split; [reflexivity |]. split; [discriminate | reflexivity].
  - destruct (bin_pos_leading_one p) as [Hne H1].
    split; [apply bits_value_bin_pos |]. split; [exact Hne |].
    intros H0. destruct (Py.bin_pos p) as [| c s]; [congruence |].
    cbn [Py.startswith] in H0, H1.
    apply Ascii.eqb_eq in H0, H1. congruence.
Qed.

Lemma length_append (s t : string) :
  String.length (s ++ t) = (String.length s + String.length t)%nat.
Proof. induction s as [| c s IH]; cbn; [reflexivity | now rewrite IH]. Qed.

Lemma length_zeros (k : nat) : String.length (Py.zeros k) = k.
Proof. induction k as [| k IH]; cbn; [reflexivity | now rewrite IH]. Qed.

Lemma format_0b_of_N (n : N) (width : nat) :
  Py.format_0b (Z.of_N n) width =
  Py.zeros (width - String.length (Py.bin n)) ++ Py.bin n.
Proof.
  unfold Py.format_0b.
  replace (Z.of_N n <? 0) with false by (symmetry; apply Z.ltb_ge; lia).
  rewrite Z.abs_eq by lia. rewrite N2Z.id. reflexivity.
Qed.

(** [_decimal2bits] on a numeral. *)
Lemma decimal2bits_numeral (v : string) (width : nat) :
  is_numeral v = true ->
  _decimal2bits v width =
  Ok (Py.zeros (width - String.length (Py.bin (numeral_value v)))
      ++ Py.bin (numeral_value v)).
Proof.
  intros Hv. unfold _decimal2bits.
  pose proof (int_numeral v "" Hv eq_refl) as H.
  replace (v ++ "") with v in H
    by (clear; induction v as [| c v IH]; cbn; [| rewrite <- IH]; reflexivity).
  rewrite H. cbn [bind]. now rewrite format_0b_of_N.
Qed.

(** C7: on a non-negative decimal numeral [v], [_decimal2bits v w] is the
    binary representation of the value of [v], padded on the left with
    zeros to exactly [w] characters when it fits, and the whole
    representation, not cut, when it is longer than [w]; so 5 at width 8
    gives 00000101 and 300 at width 8 gives the nine digits 100101100. *)
Theorem C7_decimal2bits_pads_and_never_truncates :
  (forall (v : string) (w : nat),
     is_numeral v = true ->
     exists b : string,
       binary_representation (numeral_value v) b /\
       ((String.length b <= w)%nat ->
        _decimal2bits v w = Ok (Py.zeros (w - String.length b) ++ b) /\
        String.length (Py.zeros (w - String.length b) ++ b) = w) /\
       ((w < String.length b)%nat -> _decimal2bits v w = Ok b)) /\
  _decimal2bits "5" 8 = Ok "00000101" /\
  _decimal2bits "300" 8 = Ok "100101100".
Proof.
  split; [| split; reflexivity].
  intros v w Hv. exists (Py.bin (numeral_value v)).
  split; [apply bin_is_binary_representation |].
  rewrite (decimal2bits_numeral v w Hv). split.
  - intros Hle. split; [reflexivity |].
    rewrite length_append, length_zeros. lia.
  - intros Hlt.
    replace (w - String.length (Py.bin (numeral_value v)))%nat with O by lia.
    reflexivity.
Qed.

Lemma C7_decimal2bits_witness :
  exists b : string,
    binary_representation (numeral_value "40000") b /\
    ((String.length b <= 16)%nat ->
     _decimal2bits "40000" 16 = Ok (Py.zeros (16 - String.length b) ++ b) /\
     String.length (Py.zeros (16 - String.length b) ++ b) = 16%nat) /\
    ((16 < String.length b)%nat -> _decimal2bits "40000" 16 = Ok b).
Proof.
  apply (proj1 C7_decimal2bits_pads_and_never_truncates "40000" 16%nat).
  reflexivity.
Defined.

(** ** Field matching *)

(** [_try_candidate_fields] tests the fields on [tested_values]. *)
Lemma try_fields_tested_values (content : string) (cfields : list field_def) :
  forall pos,
    try_fields_from pos content cfields =
    match_values cfields (tested_values pos content cfields).
Proof.
  induction cfields as [| cfield cfields IH]; intros pos; [reflexivity |].
  cbn [try_fields_from tested_values].
  destruct (key_length cfield) as [l |]; cbn [match_values];
    destruct (match_field cfield _) as [[|] | e]; cbn [bind negb];
    try reflexivity; apply IH.
Qed.

(** A field without [length] is tested on the whole content, wherever
    the cursor stands. *)
Lemma unlengthed_field_sees_whole_content
  (pos : Z) (content : string) (cfield : field_def) (cfields : list field_def) :
  key_length cfield = None ->
  tested_values pos content (cfield :: cfields) =
  content :: tested_values pos content cfields.
Proof. intros H. cbn [tested_values]. now rewrite H. Qed.

(** C3, at the regular definition of 65000 with a one-character field
    [a] of pattern 1 and a field [b] without length of pattern 0+, on the
    community 65000:100: the field without length is tested on the whole
    content 100 and not on the rest 00 after the cursor, so the definition
    is not selected, though the slice from the cursor fits the pattern and
    is what extraction returns for that field. *)
Theorem C3_unlengthed_field_tested_on_whole_content :
  tested_values 0 "100" fields_one_then_zeros = ["1"; "100"] /\
  claimed_tested_values 0 "100" fields_one_then_zeros = ["1"; "00"] /\
  _try_candidate_fields "100" fields_one_then_zeros = Ok false /\
  match_values fields_one_then_zeros
    (claimed_tested_values 0 "100" fields_one_then_zeros) = Ok true /\
  parse_community (mk_parser [regular_one_then_zeros] [] []) "65000:100"
  = Ok None /\
  (exists fieldvals,
     _candidate2fields "100" (mk_local None fields_one_then_zeros)
     = Ok fieldvals /\ fieldvals !! 1%nat = Some "00").
Proof.
  repeat split; try (vm_compute; reflexivity).
  eexists. split; vm_compute; reflexivity.
Qed.

(** ** Candidate selection *)

(** A binary regular definition with the right administrator whose fields
    do not fit hands its binary digits on to the definitions after it. *)
Lemma regular_binary_miss_is_carried_over
  (asn content bits : string) (c : candidate) (rest : list candidate)
  (g : Z) (la : local_def) (cfields : list field_def) :
  key_globaladmin c = Some g -> asn = Py.str g ->
  key_localadmin c = Some la -> format_is_binary la = true ->
  key_fields la = Some cfields ->
  _decimal2bits content 16 = Ok bits ->
  _try_candidate_fields bits cfields = Ok false ->
  _try_candidates_regular asn content (c :: rest) =
  _try_candidates_regular asn bits rest.
Proof.
  intros Hg -> Hla Hb Hf Hbits Hmiss.
  cbn [_try_candidates_regular]. rewrite Hg. cbn [getitem bind].
  rewrite String.eqb_refl. cbn [negb]. rewrite Hla. cbn [getitem bind].
  rewrite Hb, Hbits. cbn [bind]. rewrite Hf. cbn [getitem bind].
  now rewrite Hmiss.
Qed.

(** C2, on the community 65000:5 (regular) and 65000:5:7 (large): a binary
    definition that does not fit comes before a decimal definition that
    fits the parsed content.  The decimal definition is tested on the
    binary digits the earlier round left in [content], not on the parsed
    content, and the lookup finds nothing; on its own the decimal
    definition is found. *)
Theorem C2_transform_leaks_into_later_candidates :
  _try_candidate_fields "5" [mk_field "v" "5" None None] = Ok true /\
  _try_candidates_regular "65000" "5" [regular_decimal_five]
  = Ok (Some regular_decimal_five) /\
  _try_candidates_regular "65000" "5"
    [regular_binary_never; regular_decimal_five] = Ok None /\
  _try_candidates_regular "65000" "5"
    [regular_binary_never; regular_decimal_five]
  = _try_candidates_regular "65000" "0000000000000101" [regular_decimal_five] /\
  parse_community
    (mk_parser [regular_binary_never; regular_decimal_five] [] []) "65000:5"
  = Ok None /\
  _try_candidates_large "65000" "5" "7" [large_decimal_seven]
  = Ok (Some large_decimal_seven) /\
  _try_candidates_large "65000" "5" "7"
    [large_binary_never; large_decimal_seven] = Ok None /\
  parse_community
    (mk_parser [] [large_binary_never; large_decimal_seven] []) "65000:5:7"
  = Ok None.
Proof. repeat split; vm_compute; reflexivity. Qed.

(** C4, at the extended definition of type 0, subtype 2 and [asn] 65000
    with binary fields [hi] and [lo] of sixteen digits each, on the
    community 0x00:0x02:65000:1: matching slices the 32-digit transform
    of the content, extraction slices the 16-digit transform, so the
    values rendered are not the segments that were matched. *)
Theorem C4_extraction_slices_another_string :
  _try_candidates_extended "0x00" "0x02" "65000" "1" [extended_asn_hi_lo]
  = Ok (Some extended_asn_hi_lo) /\
  _decimal2bits "1" 32 = Ok "00000000000000000000000000000001" /\
  tested_values 0 "00000000000000000000000000000001" fields_hi_lo
  = ["0000000000000000"; "0000000000000001"] /\
  _candidate2fields "1" (mk_local (Some "binary") fields_hi_lo)
  = Ok (<[1%nat := ""]> (<[0%nat := "0000000000000001"]> ∅)) /\
  parse_community (mk_parser [] [] [extended_asn_hi_lo]) "0x00:0x02:65000:1"
  = Ok (Some "65000:hi=0000000000000001,lo=").
Proof. repeat split; vm_compute; reflexivity. Qed.

(** ** Classification *)

(** C5, on the community 0xAB:0x01:1:2: the type octet has hexadecimal
    letters, the shape test for extended communities takes decimal digits
    only, and [parse_community] answers [None] whatever is loaded, while
    [parse_extended_community] finds the definition of type 0xAB. *)
Theorem C5_hex_letters_are_not_classified (self : BGPCommunityParser) :
  Re.re_match "^0x\d\d:0x\d\d:\d+:\d+$" "0xAB:0x01:1:2" = Ok false /\
  parse_community self "0xAB:0x01:1:2" = Ok None /\
  parse_extended_community (mk_parser [] [] [extended_type_ab])
    "0xAB:0x01:1:2" = Ok (Some "1:v=2") /\
  parse_community (mk_parser [] [] [extended_type_ab]) "0xAB:0x01:1:2"
  = Ok None.
Proof. repeat split; vm_compute; reflexivity. Qed.

(** ** Loading *)

Lemma load_source_appends (self : BGPCommunityParser) (source : string)
  (jdata : document) :
  comm_regular (load_source self source jdata)
  = (comm_regular self ++ regular jdata)%list /\
  comm_large (load_source self source jdata)
  = (comm_large self ++ large jdata)%list /\
  comm_extended (load_source self source jdata)
  = (comm_extended self ++ extended jdata)%list.
Proof. repeat split. Qed.

(** C8, for the document whose regular list is a decimal definition for
    the sixteen digits 0000000000000101 followed by a binary definition
    that fits nothing, on the community 65000:5: loaded once the parser
    finds nothing; loaded twice the second copy of the decimal definition
    is tested on the binary digits the first pass left behind and is
    found. *)
Theorem C8_second_load_changes_the_answer :
  let once := load_source empty_parser "doc.json" document_bits_then_binary in
  let twice := load_source once "doc.json" document_bits_then_binary in
  comm_regular twice
  = (regular document_bits_then_binary
     ++ regular document_bits_then_binary)%list /\
  parse_community once "65000:5" = Ok None /\
  parse_community twice "65000:5" = Ok (Some "65000:f=5").
Proof. repeat split; vm_compute; reflexivity. Qed.

(** ** Extended communities: the width of the binary transform *)

(** C1 as the claim has it fails: the definition that declares [asn] only
    is found through the 32-digit transform of the content, where the
    claimed width 16 would reject it; the definition that declares [asn4]
    only is found through the 16-digit transform, where the claimed width
    32 would reject it. *)
Lemma C1_claimed_width_counterexample :
  _try_candidates_extended "0x00" "0x02" "65000" "1" [extended_asn_32]
  = Ok (Some extended_asn_32) /\
  (let! bits := _decimal2bits "1" (claimed_extended_width extended_asn_32) in
   _try_candidate_fields bits [mk_field "v" "[01]{32}" None None])
  = Ok false /\
  _try_candidates_extended "0x02" "0x02" "70000" "1" [extended_asn4_16]
  = Ok (Some extended_asn4_16) /\
  (let! bits := _decimal2bits "1" (claimed_extended_width extended_asn4_16) in
   _try_candidate_fields bits [mk_field "v" "[01]{16}" None None])
  = Ok false.
Proof. repeat split; vm_compute; reflexivity. Qed.

(** C1, amended: for an extended definition that passes the type,
    subtype and administrator tests and whose local administrator
    declares the binary format, the fields are matched on the transform
    of the content of width 16 where the definition declares [asn4], and
    of width 32 where it does not (it declares [asn] only). *)
Theorem C1_extended_binary_width
  (extype exsubtype asn content : string) (c : candidate)
  (rest : list candidate) (t st : Z) (la : local_def)
  (cfields : list field_def) :
  Py.int_of 16 extype = Ok t -> key_type c = Some t ->
  Py.int_of 16 exsubtype = Ok st -> key_subtype c = Some st ->
  extended_admin_ok asn c = true ->
  key_localadmin c = Some la -> format_is_binary la = true ->
  key_fields la = Some cfields ->
  _try_candidates_extended extype exsubtype asn content (c :: rest) =
  (let! bits :=
     _decimal2bits content
       (match key_asn4 c with Some _ => 16%nat | None => 32%nat end) in
   let! ok := _try_candidate_fields bits cfields in
   if ok then Ok (Some c)
   else _try_candidates_extended extype exsubtype asn content rest).
Proof.
  intros Ht Hct Hst Hcst Hadm Hla Hbin Hf.
  cbn [_try_candidates_extended].
  rewrite Ht, Hct, Hst, Hcst. cbn [getitem bind].
  rewrite !Z.eqb_refl, Hadm. cbn [negb].
  rewrite Hla. cbn [getitem bind]. rewrite Hbin.
  destruct (key_asn4 c);
    (destruct (_decimal2bits content _) as [bits | e]; cbn [bind];
     [rewrite Hf; reflexivity | reflexivity]).
Qed.

Lemma C1_extended_binary_width_witness :
  _try_candidates_extended "0x00" "0x02" "65000" "1" [extended_asn_32] =
  (let! bits := _decimal2bits "1" 32 in
   let! ok := _try_candidate_fields bits [mk_field "v" "[01]{32}" None None] in
   if ok then Ok (Some extended_asn_32)
   else _try_candidates_extended "0x00" "0x02" "65000" "1" []).
Proof.
  apply (C1_extended_binary_width "0x00" "0x02" "65000" "1" extended_asn_32 []
           0 2
           (mk_local (Some "binary") [mk_field "v" "[01]{32}" None None])
           [mk_field "v" "[01]{32}" None None]);
    reflexivity.
Defined.

(** ** [int] undoes [str] *)

Lemma append_empty (s : string) : s ++ "" = s.
Proof. induction s as [| c s IH]; cbn; [| rewrite IH]; reflexivity. Qed.

Ltac compute_digit :=
  match goal with
  | |- context [N.of_nat (Py.ord ?c - 48)] =>
      let v := eval vm_compute in (N.of_nat (Py.ord c - 48)) in
      change (N.of_nat (Py.ord c - 48)) with v
  end.

Lemma all_digits_string_of_uint (u : Decimal.uint) :
  all_digits (NilEmpty.string_of_uint u) = true.
Proof.
  induction u as [| u IH | u IH | u IH | u IH | u IH | u IH | u IH | u IH
                 | u IH | u IH];
    cbn [NilEmpty.string_of_uint all_digits]; [reflexivity | ..];
    rewrite IH; reflexivity.
Qed.

Lemma digits_value_of_uint_acc (u : Decimal.uint) :
  forall acc : positive,
    digits_value 10 (Npos acc) (NilEmpty.string_of_uint u)
    = Npos (Pos.of_uint_acc u acc).
Proof.
  induction u as [| u IH | u IH | u IH | u IH | u IH | u IH | u IH | u IH
                 | u IH | u IH];
    intros acc; cbn [NilEmpty.string_of_uint digits_value Pos.of_uint_acc];
    [reflexivity | ..];
    compute_digit; rewrite <- IH; f_equal; lia.
Qed.

Lemma digits_value_of_uint (u : Decimal.uint) :
  digits_value 10 0 (NilEmpty.string_of_uint u) = Pos.of_uint u.
Proof.
  induction u as [| u IH | u IH | u IH | u IH | u IH | u IH | u IH | u IH
                 | u IH | u IH];
    cbn [NilEmpty.string_of_uint digits_value Pos.of_uint];
    [reflexivity | ..]; compute_digit;
    [exact IH | ..]; rewrite <- digits_value_of_uint_acc; reflexivity.
Qed.

(** The decimal rendering of a non-negative integer reads back as the
    same integer. *)
Lemma int_str (z : Z) : 0 <= z -> Py.int (Py.str z) = Ok z.
Proof.
  intros Hz. destruct z as [| p | p]; [reflexivity | | lia].
  unfold Py.str. cbn [Z.to_int NilZero.string_of_int].
  pose proof (Unsigned.to_uint_nonnil p) as Hnil.
  pose proof (Unsigned.of_to p) as Hval.
  set (u := Pos.to_uint p) in *.
  assert (Hs : NilZero.string_of_uint u = NilEmpty.string_of_uint u)
    by (destruct u; [congruence | reflexivity ..]).
  rewrite Hs.
  assert (Hnum : is_numeral (NilEmpty.string_of_uint u) = true).
  { pose proof (all_digits_string_of_uint u) as Hd.
    destruct u; [congruence | exact Hd ..]. }
  pose proof (int_numeral _ "" Hnum eq_refl) as Hint.
  rewrite append_empty in Hint. rewrite Hint.
  unfold numeral_value. rewrite digits_value_of_uint, Hval. reflexivity.
Qed.

(** ** What a selected definition has passed *)

Ltac step_in H :=
  match type of H with
  | context [bind (getitem ?o) _] =>
      destruct o eqn:?; cbn [getitem bind] in H
  | context [bind ?m _] => destruct m eqn:?; cbn [bind] in H
  | context [if ?b then _ else _] => destruct b eqn:?
  end; try discriminate H.

Lemma extended_found (extype exsubtype asn content : string)
  (candidates : list candidate) (found : candidate) :
  _try_candidates_extended extype exsubtype asn content candidates
  = Ok (Some found) ->
  In found candidates /\ extended_admin_ok asn found = true.
Proof.
  induction candidates as [| c rest IH]; intros H; [discriminate H |].
  cbn [_try_candidates_extended] in H.
  repeat step_in H;
    try (destruct (IH H) as [Hin Hadm]; split; [now right | exact Hadm]).
  all: injection H as <-; split; [now left |];
    now destruct (extended_admin_ok asn c).
Qed.

(** ** What the shape tests tell about a community *)

Lemma shapes_compile :
  Re.compile "^\d+:\d+$" = Some regular_shape /\
  Re.compile "^\d+:\d+:\d+$" = Some large_shape /\
  Re.compile "^0x\d\d:0x\d\d:\d+:\d+$" = Some extended_shape.
Proof. repeat split; vm_compute; reflexivity. Qed.

Lemma matches_in (r : Re.regex) (s : string) :
  Re.matches r s = true -> exists st', In st' (Re.run r (O, s)).
Proof.
  unfold Re.matches. destruct (Re.run r (O, s)) as [| st' l]; [discriminate |].
  intros _. exists st'. now left.
Qed.

Lemma in_run_cat (r1 r2 : Re.regex) (st st' : Re.state) :
  In st' (Re.run (Re.Cat r1 r2) st) ->
  exists mid, In mid (Re.run r1 st) /\ In st' (Re.run r2 mid).
Proof. cbn [Re.run]. intros H. now apply in_flat_map in H. Qed.

Lemma in_run_chr (cs : Re.cset) (st st' : Re.state) :
  In st' (Re.run (Re.Chr cs) st) ->
  exists c, snd st = String c (snd st') /\ Re.cset_mem cs c = true.
Proof.
  cbn [Re.run]. destruct (snd st) as [| c s']; [intros [] |].
  destruct (Re.cset_mem cs c) eqn:E; [| intros []].
  intros [<- | []]. exists c. now split.
Qed.

Lemma in_star_digits (fuel : nat) :
  forall st st' : Re.state,
    In st' (Re.star_run (Re.run digit) fuel st) ->
    exists w, snd st = w ++ snd st' /\ all_digits w = true.
Proof.
  induction fuel as [| fuel IH]; intros st st' H; cbn [Re.star_run] in H.
  - destruct H as [<- | []]. now exists "".
  - destruct H as [<- | H]; [now exists "" |].
    apply in_flat_map in H as (mid & Hmid & H).
    apply filter_In in Hmid as [Hmid _].
    apply in_run_chr in Hmid as (c & Hc & Hd).
    apply IH in H as (w & Hw & Hall).
    exists (String c w). split.
    + cbn [String.append]. now rewrite Hc, Hw.
    + cbn [all_digits]. cbn in Hd. now rewrite Hd.
Qed.

Lemma shape_bol (r : Re.regex) (s : string) (st' : Re.state) :
  In st' (Re.run (Re.Cat Re.Bol r) (O, s)) -> In st' (Re.run r (O, s)).
Proof.
  intros H. apply in_run_cat in H as (mid & Hmid & H).
  cbn in Hmid. destruct Hmid as [<- | []]. exact H.
Qed.

Lemma shape_digits1 (r : Re.regex) (st st' : Re.state) :
  In st' (Re.run (Re.Cat digits1 r) st) ->
  exists w mid,
    is_numeral w = true /\ snd st = w ++ snd mid /\ In st' (Re.run r mid).
Proof.
  intros H. apply in_run_cat in H as (mid & Hmid & H).
  apply in_run_cat in Hmid as (m1 & Hm1 & Hmid).
  apply in_run_chr in Hm1 as (c & Hc & Hd).
  cbn [Re.run] in Hmid. apply in_star_digits in Hmid as (w & Hw & Hall).
  exists (String c w), mid. repeat split.
  - cbn [is_numeral all_digits]. cbn in Hd. now rewrite Hd.
  - cbn [String.append]. now rewrite Hc, Hw.
  - exact H.
Qed.

Lemma shape_lit (c : ascii) (r : Re.regex) (st st' : Re.state) :
  In st' (Re.run (Re.Cat (lit c) r) st) ->
  exists mid, snd st = String c (snd mid) /\ In st' (Re.run r mid).
Proof.
  intros H. apply in_run_cat in H as (mid & Hmid & H).
  apply in_run_chr in Hmid as (d & Hd & Hmem).
  cbn in Hmem. apply Ascii.eqb_eq in Hmem. subst d.
  now exists mid.
Qed.

Lemma shape_digit (r : Re.regex) (st st' : Re.state) :
  In st' (Re.run (Re.Cat digit r) st) ->
  exists d mid,
    Py.is_digit d = true /\ snd st = String d (snd mid) /\
    In st' (Re.run r mid).
Proof.
  intros H. apply in_run_cat in H as (mid & Hmid & H).
  apply in_run_chr in Hmid as (d & Hd & Hmem).
  now exists d, mid.
Qed.


Lemma split_zero (sep : ascii) (s : string) : Py.split sep 0 s = [s].
Proof. destruct s; reflexivity. Qed.

Lemma split_head (sep : ascii) (a rest : string) (k : nat) :
  count sep a = O ->
  Py.split sep (S k) (a ++ String sep rest) = a :: Py.split sep k rest.
Proof.
  induction a as [| c a IH]; intros Hc; cbn [String.append Py.split].
  - now rewrite Ascii.eqb_refl.
  - cbn [count] in Hc. destruct (Ascii.eqb c sep); [discriminate Hc |].
    now rewrite (IH Hc).
Qed.

Lemma digits_no_colon (w : string) :
  all_digits w = true -> count ":" w = O.
Proof.
  induction w as [| c w IH]; [reflexivity |].
  cbn [all_digits count]. intros H. apply andb_prop in H as [Hc Hw].
  destruct (digit_facts c Hc) as (_ & _ & _ & _ & _ & _ & -> & _).
  now apply IH.
Qed.

Lemma numeral_no_colon (w : string) :
  is_numeral w = true -> count ":" w = O.
Proof. destruct w; [discriminate |]. apply digits_no_colon. Qed.

Lemma octet_no_colon (d1 d2 : ascii) :
  Py.is_digit d1 = true -> Py.is_digit d2 = true ->
  count ":" (String "0" (String "x" (String d1 (String d2 "")))) = O.
Proof.
  intros H1 H2. cbn [count].
  destruct (digit_facts d1 H1) as (_ & _ & _ & _ & _ & _ & -> & _).
  destruct (digit_facts d2 H2) as (_ & _ & _ & _ & _ & _ & -> & _).
  reflexivity.
Qed.

Lemma digit_cases (d : ascii) :
  Py.is_digit d = true ->
  In d ["0"; "1"; "2"; "3"; "4"; "5"; "6"; "7"; "8"; "9"]%char.
Proof.
  ascii_cases d; intros H; try discriminate H; cbn [In]; tauto.
Qed.


(** *** Texts that [int] reads *)





Lemma bin_not_empty (n : N) : Py.bin n <> "".
Proof.
  destruct n as [| p]; [discriminate |]. apply bin_pos_leading_one.
Qed.



(** *** The three shapes *)



Lemma shape_octet (r : Re.regex) (st st' : Re.state) :
  In st' (Re.run (octet r) st) ->
  exists d1 d2 mid,
    Py.is_digit d1 = true /\ Py.is_digit d2 = true /\
    snd st
    = String "0" (String "x" (String d1 (String d2 ""))) ++ snd mid /\
    In st' (Re.run r mid).
Proof.
  intros H. unfold octet in H.
  apply shape_lit in H as (m1 & E1 & H).
  apply shape_lit in H as (m2 & E2 & H).
  apply shape_digit in H as (d1 & m3 & H1 & E3 & H).
  apply shape_digit in H as (d2 & m4 & H2 & E4 & H).
  exists d1, d2, m4. cbn [String.append].
  rewrite E1, E2, E3, E4. auto.
Qed.


(** ** Well-formed definitions never raise *)









(** *** Extraction fills every key the rendering reads *)













(** ** Extended communities: a second load is idle

    [_try_candidates_extended] starts every round from the parsed
    content, so what it finds in a list does not depend on what follows
    the list, and a document loaded twice is found as it is loaded once. *)

Ltac step_goal :=
  match goal with
  | |- context [bind ?m _] => destruct m; cbn [bind]
  | |- context [if ?b then _ else _] => destruct b
  end.

Lemma extended_app (extype exsubtype asn content : string)
  (l1 l2 : list candidate) :
  _try_candidates_extended extype exsubtype asn content (l1 ++ l2)%list =
  match _try_candidates_extended extype exsubtype asn content l1 with
  | Ok None => _try_candidates_extended extype exsubtype asn content l2
  | r => r
  end.
Proof.
  induction l1 as [| c l1 IH]; [reflexivity |].
  cbn [app _try_candidates_extended].
  repeat step_goal; auto.
Qed.

Lemma extended_second_load_is_idle (self : BGPCommunityParser)
  (source community : string) (jdata : document) :
  parse_extended_community
    (load_source (load_source self source jdata) source jdata) community
  = parse_extended_community (load_source self source jdata) community.
Proof.
  unfold parse_extended_community.
  destruct (Py.split ":" 3 community) as [| a [| b [| c [| d [| e l]]]]];
    try reflexivity.
  cbn [load_source comm_extended].
  rewrite (extended_app a b c d (comm_extended self ++ extended jdata)).
  destruct (_try_candidates_extended a b c d
              (comm_extended self ++ extended jdata)%list)
    as [[found |] | err] eqn:E; try reflexivity.
  rewrite extended_app in E.
  destruct (_try_candidates_extended a b c d (comm_extended self))
    as [[found |] | err]; try discriminate E.
  now rewrite E.
Qed.

(** ** Classification, in both directions *)

Lemma in_run_cat_intro (r1 r2 : Re.regex) (st mid st' : Re.state) :
  In mid (Re.run r1 st) -> In st' (Re.run r2 mid) ->
  In st' (Re.run (Re.Cat r1 r2) st).
Proof. intros H1 H2. cbn [Re.run]. apply in_flat_map. eauto. Qed.

Lemma in_matches (r : Re.regex) (s : string) (st' : Re.state) :
  In st' (Re.run r (O, s)) -> Re.matches r s = true.
Proof.
  unfold Re.matches. destruct (Re.run r (O, s)); [intros [] | reflexivity].
Qed.

Lemma run_digit_step (n : nat) (c : ascii) (s : string) :
  Py.is_digit c = true -> Re.run digit (n, String c s) = [(S n, s)].
Proof. intros H. cbn. now rewrite H. Qed.

Lemma star_digits_complete (w rest : string) :
  all_digits w = true ->
  forall n fuel,
    (String.length (w ++ rest) <= fuel)%nat ->
    In ((n + String.length w)%nat, rest)
       (Re.star_run (Re.run digit) fuel (n, w ++ rest)).
Proof.
  induction w as [| c w IH]; intros Hw n fuel Hfuel.
  - cbn [String.append String.length]. rewrite Nat.add_0_r.
    destruct fuel; left; reflexivity.
  - cbn [all_digits] in Hw. apply andb_prop in Hw as [Hc Hw].
    cbn [String.append String.length] in *.
    destruct fuel as [| fuel]; [lia |].
    cbn [Re.star_run]. right.
    rewrite (run_digit_step n c (w ++ rest) Hc). cbn [List.filter].
    unfold Re.shorter at 1. cbn [snd String.length].
    replace (String.length (w ++ rest) <? S (String.length (w ++ rest)))%nat
      with true by (symmetry; apply Nat.ltb_lt; lia).
    cbn [flat_map]. apply in_or_app. left.
    replace (n + S (String.length w))%nat with (S n + String.length w)%nat
      by lia.
    apply IH; [exact Hw | lia].
Qed.

Lemma run_digits1_complete (w rest : string) (n : nat) :
  is_numeral w = true ->
  In ((n + String.length w)%nat, rest) (Re.run digits1 (n, w ++ rest)).
Proof.
  destruct w as [| c w]; [discriminate |].
  cbn [is_numeral all_digits]. intros H. apply andb_prop in H as [Hc Hw].
  unfold digits1. apply (in_run_cat_intro _ _ _ (S n, w ++ rest)).
  - cbn [String.append]. rewrite (run_digit_step n c _ Hc). now left.
  - cbn [Re.run snd String.length].
    replace (n + S (String.length w))%nat with (S n + String.length w)%nat
      by lia.
    now apply star_digits_complete.
Qed.

Lemma run_lit_complete (c : ascii) (n : nat) (s : string) :
  In (S n, s) (Re.run (lit c) (n, String c s)).
Proof. cbn. rewrite Ascii.eqb_refl. now left. Qed.

Lemma run_digit_complete (d : ascii) (n : nat) (s : string) :
  Py.is_digit d = true -> In (S n, s) (Re.run digit (n, String d s)).
Proof. intros H. rewrite (run_digit_step n d s H). now left. Qed.

Lemma run_at_end_complete (n : nat) (tail : string) :
  line_end tail -> In (n, tail) (Re.run at_end (n, tail)).
Proof. intros [-> | ->]; cbn; now left. Qed.

Lemma shape_at_end_exact (st st' : Re.state) :
  In st' (Re.run at_end st) -> line_end (snd st).
Proof.
  intros H. apply in_run_cat in H as (mid & Hmid & _).
  cbn [Re.run] in Hmid. destruct (snd st) as [| c [| d s]];
    [now left | | destruct Hmid].
  destruct (Ascii.eqb c Re.newline) eqn:E; [| destruct Hmid].
  apply Ascii.eqb_eq in E. subst c. now right.
Qed.

Lemma regular_shape_iff (s : string) :
  Re.matches regular_shape s = true <-> regular_form s.
Proof.
  split.
  - intros H. apply matches_in in H as [st' H].
    apply shape_bol in H.
    apply shape_digits1 in H as (a & m1 & Ha & E1 & H).
    apply shape_lit in H as (m2 & E2 & H).
    apply shape_digits1 in H as (b & m3 & Hb & E3 & H).
    apply shape_at_end_exact in H.
    exists a, b, (snd m3). cbn [snd] in E1.
    rewrite E1, E2, E3. auto.
  - intros (a & b & tail & -> & Ha & Hb & Ht).
    eapply in_matches.
    unfold regular_shape.
    eapply in_run_cat_intro; [now left |].
    eapply in_run_cat_intro; [now apply run_digits1_complete |].
    eapply in_run_cat_intro; [apply run_lit_complete |].
    eapply in_run_cat_intro; [now apply run_digits1_complete |].
    now apply run_at_end_complete.
Qed.

Lemma large_shape_iff (s : string) :
  Re.matches large_shape s = true <-> large_form s.
Proof.
  split.
  - intros H. apply matches_in in H as [st' H].
    apply shape_bol in H.
    apply shape_digits1 in H as (a & m1 & Ha & E1 & H).
    apply shape_lit in H as (m2 & E2 & H).
    apply shape_digits1 in H as (b & m3 & Hb & E3 & H).
    apply shape_lit in H as (m4 & E4 & H).
    apply shape_digits1 in H as (c & m5 & Hc & E5 & H).
    apply shape_at_end_exact in H.
    exists a, b, c, (snd m5). cbn [snd] in E1.
    rewrite E1, E2, E3, E4, E5. auto.
  - intros (a & b & c & tail & -> & Ha & Hb & Hc & Ht).
    eapply in_matches.
    unfold large_shape.
    eapply in_run_cat_intro; [now left |].
    eapply in_run_cat_intro; [now apply run_digits1_complete |].
    eapply in_run_cat_intro; [apply run_lit_complete |].
    eapply in_run_cat_intro; [now apply run_digits1_complete |].
    eapply in_run_cat_intro; [apply run_lit_complete |].
    eapply in_run_cat_intro; [now apply run_digits1_complete |].
    now apply run_at_end_complete.
Qed.

Lemma run_octet_complete (r : Re.regex) (d1 d2 : ascii) (n : nat)
  (rest : string) (st' : Re.state) :
  Py.is_digit d1 = true -> Py.is_digit d2 = true ->
  In st' (Re.run r (S (S (S (S n))), rest)) ->
  In st' (Re.run (octet r)
            (n, String "0" (String "x" (String d1 (String d2 ""))) ++ rest)).
Proof.
  intros H1 H2 H. unfold octet. cbn [String.append].
  eapply in_run_cat_intro; [apply run_lit_complete |].
  eapply in_run_cat_intro; [apply run_lit_complete |].
  eapply in_run_cat_intro; [now apply run_digit_complete |].
  eapply in_run_cat_intro; [now apply run_digit_complete |].
  exact H.
Qed.

Lemma extended_shape_iff (s : string) :
  Re.matches extended_shape s = true <-> extended_form s.
Proof.
  split.
  - intros H. apply matches_in in H as [st' H].
    apply shape_bol in H.
    apply shape_octet in H as (d1 & d2 & m1 & H1 & H2 & E1 & H).
    apply shape_lit in H as (m2 & E2 & H).
    apply shape_octet in H as (d3 & d4 & m3 & H3 & H4 & E3 & H).
    apply shape_lit in H as (m4 & E4 & H).
    apply shape_digits1 in H as (a & m5 & Ha & E5 & H).
    apply shape_lit in H as (m6 & E6 & H).
    apply shape_digits1 in H as (b & m7 & Hb & E7 & H).
    apply shape_at_end_exact in H.
    exists (String "0" (String "x" (String d1 (String d2 "")))),
      (String "0" (String "x" (String d3 (String d4 "")))),
      a, b, (snd m7).
    cbn [snd] in E1. rewrite E1, E2, E3, E4, E5, E6, E7.
    repeat split; try assumption; eexists _, _; eauto.
  - intros (o1 & o2 & a & b & tail & -> & (d1 & d2 & -> & H1 & H2)
            & (d3 & d4 & -> & H3 & H4) & Ha & Hb & Ht).
    eapply in_matches.
    unfold extended_shape.
    eapply in_run_cat_intro; [now left |].
    apply run_octet_complete; [assumption .. |].
    eapply in_run_cat_intro; [apply run_lit_complete |].
    apply run_octet_complete; [assumption .. |].
    eapply in_run_cat_intro; [apply run_lit_complete |].
    eapply in_run_cat_intro; [now apply run_digits1_complete |].
    eapply in_run_cat_intro; [apply run_lit_complete |].
    eapply in_run_cat_intro; [now apply run_digits1_complete |].
    now apply run_at_end_complete.
Qed.

Lemma count_app (c : ascii) (a b : string) :
  count c (a ++ b) = (count c a + count c b)%nat.
Proof.
  induction a as [| d a IH]; cbn [String.append count]; [reflexivity |].
  destruct (Ascii.eqb d c); rewrite IH; reflexivity.
Qed.

Lemma line_end_no_colon (tail : string) : line_end tail -> count ":" tail = O.
Proof. intros [-> | ->]; reflexivity. Qed.

Lemma is_octet_no_colon (o : string) : is_octet o -> count ":" o = O.
Proof. intros (d1 & d2 & -> & H1 & H2). now apply octet_no_colon. Qed.

Lemma regular_form_colons (s : string) :
  regular_form s -> count ":" s = 1%nat.
Proof.
  intros (a & b & tail & -> & Ha & Hb & Ht).
  rewrite count_app. cbn [count]. rewrite Ascii.eqb_refl, count_app.
  rewrite (numeral_no_colon a Ha), (numeral_no_colon b Hb),
    (line_end_no_colon tail Ht). reflexivity.
Qed.

Lemma large_form_colons (s : string) :
  large_form s -> count ":" s = 2%nat.
Proof.
  intros (a & b & c & tail & -> & Ha & Hb & Hc & Ht).
  rewrite count_app. cbn [count]. rewrite Ascii.eqb_refl, count_app.
  cbn [count]. rewrite Ascii.eqb_refl, count_app.
  rewrite (numeral_no_colon a Ha), (numeral_no_colon b Hb),
    (numeral_no_colon c Hc), (line_end_no_colon tail Ht). reflexivity.
Qed.

Lemma extended_form_colons (s : string) :
  extended_form s -> count ":" s = 3%nat.
Proof.
  intros (o1 & o2 & a & b & tail & -> & H1 & H2 & Ha & Hb & Ht).
  rewrite count_app. cbn [count]. rewrite Ascii.eqb_refl, count_app.
  cbn [count]. rewrite Ascii.eqb_refl, count_app.
  cbn [count]. rewrite Ascii.eqb_refl, count_app.
  rewrite (is_octet_no_colon o1 H1), (is_octet_no_colon o2 H2),
    (numeral_no_colon a Ha), (numeral_no_colon b Hb),
    (line_end_no_colon tail Ht). reflexivity.
Qed.

Lemma not_matches (r : Re.regex) (s : string) (P : Prop) :
  (Re.matches r s = true <-> P) -> ~ P -> Re.matches r s = false.
Proof.
  intros Hiff Hn. destruct (Re.matches r s); [| reflexivity].
  elim Hn. now apply Hiff.
Qed.

Lemma dispatch_regular_core (self : BGPCommunityParser) (s : string) :
  regular_form s ->
  parse_community self s = parse_regular_community self s.
Proof.
  intros H. apply regular_shape_iff in H.
  destruct shapes_compile as (Hc1 & _).
  unfold parse_community, Re.re_match. rewrite Hc1. cbn [bind].
  now rewrite H.
Qed.

(** X1: [parse_community] hands a text to [parse_regular_community] when it
    is a numeral, a colon and a numeral, with at most one line feed after
    them. *)
Theorem dispatch_regular (self : BGPCommunityParser) (s : string) :
  regular_form s ->
  parse_community self s = parse_regular_community self s.
Proof. apply dispatch_regular_core. Qed.

Lemma dispatch_regular_witness :
  parse_community (mk_parser [regular_decimal_five] [] []) "65000:5"
  = parse_regular_community (mk_parser [regular_decimal_five] [] [])
      "65000:5".
Proof.
  apply dispatch_regular.
  exists "65000", "5", "". repeat split. now left.
Defined.

Lemma dispatch_large_core (self : BGPCommunityParser) (s : string) :
  large_form s ->
  parse_community self s = parse_large_community self s.
Proof.
  intros H.
  assert (H1 : Re.matches regular_shape s = false).
  { apply (not_matches _ _ _ (regular_shape_iff s)). intros Hr.
    apply regular_form_colons in Hr. apply large_form_colons in H. lia. }
  apply large_shape_iff in H.
  destruct shapes_compile as (Hc1 & Hc2 & _).
  unfold parse_community, Re.re_match. rewrite Hc1, Hc2. cbn [bind].
  now rewrite H1, H.
Qed.

(** X2: [parse_community] hands a text to [parse_large_community] when it is
    three numerals with colons between them, with at most one line feed
    after them. *)
Theorem dispatch_large (self : BGPCommunityParser) (s : string) :
  large_form s ->
  parse_community self s = parse_large_community self s.
Proof. apply dispatch_large_core. Qed.

Lemma dispatch_large_witness :
  parse_community (mk_parser [] [large_decimal_seven] []) "65000:5:7"
  = parse_large_community (mk_parser [] [large_decimal_seven] [])
      "65000:5:7".
Proof.
  apply dispatch_large.
  exists "65000", "5", "7", "". repeat split. now left.
Defined.

Lemma dispatch_extended_core (self : BGPCommunityParser) (s : string) :
  extended_form s ->
  parse_community self s = parse_extended_community self s.
Proof.
  intros H.
  assert (H1 : Re.matches regular_shape s = false).
  { apply (not_matches _ _ _ (regular_shape_iff s)). intros Hr.
    apply regular_form_colons in Hr. apply extended_form_colons in H. lia. }
  assert (H2 : Re.matches large_shape s = false).
  { apply (not_matches _ _ _ (large_shape_iff s)). intros Hl.
    apply large_form_colons in Hl. apply extended_form_colons in H. lia. }
  apply extended_shape_iff in H.
  destruct shapes_compile as (Hc1 & Hc2 & Hc3).
  unfold parse_community, Re.re_match. rewrite Hc1, Hc2, Hc3. cbn [bind].
  now rewrite H1, H2, H.
Qed.

(** X3: [parse_community] hands a text to [parse_extended_community] when it
    is two octets written [0x] and two decimal digits, then two numerals,
    with colons between the four, and at most one line feed after them. *)
Theorem dispatch_extended (self : BGPCommunityParser) (s : string) :
  extended_form s ->
  parse_community self s = parse_extended_community self s.
Proof. apply dispatch_extended_core. Qed.

Lemma dispatch_extended_witness :
  parse_community (mk_parser [] [] [extended_asn_hi_lo]) "0x00:0x02:65000:1"
  = parse_extended_community (mk_parser [] [] [extended_asn_hi_lo])
      "0x00:0x02:65000:1".
Proof.
  apply dispatch_extended.
  exists "0x00", "0x02", "65000", "1", "".
  repeat split; try (now left); eexists _, _; repeat split.
Defined.

(** X4: A text of none of the three forms gets the answer [None] from
    [parse_community], whatever the parser holds; so does every text
    without a colon or with more than three. *)
Theorem dispatch_none (self : BGPCommunityParser) (s : string) :
  (~ regular_form s -> ~ large_form s -> ~ extended_form s ->
   parse_community self s = Ok None) /\
  (count ":" s = O \/ (3 < count ":" s)%nat ->
   parse_community self s = Ok None).
Proof.
  assert (Hmain : ~ regular_form s -> ~ large_form s -> ~ extended_form s ->
                  parse_community self s = Ok None).
  { intros H1 H2 H3.
    apply (not_matches _ _ _ (regular_shape_iff s)) in H1.
    apply (not_matches _ _ _ (large_shape_iff s)) in H2.
    apply (not_matches _ _ _ (extended_shape_iff s)) in H3.
    destruct shapes_compile as (Hc1 & Hc2 & Hc3).
    unfold parse_community, Re.re_match. rewrite Hc1, Hc2, Hc3. cbn [bind].
    now rewrite H1, H2, H3. }
  split; [exact Hmain |].
  intros Hc. apply Hmain; intros H;
    [apply regular_form_colons in H | apply large_form_colons in H
    | apply extended_form_colons in H]; lia.
Qed.

Lemma dispatch_none_witness :
  parse_community (mk_parser [regular_decimal_five] [] []) "65000" = Ok None /\
  parse_community (mk_parser [regular_decimal_five] [] []) "1:2:3:4:5"
  = Ok None.
Proof.
  split.
  - apply (proj2 (dispatch_none _ "65000")). left. reflexivity.
  - apply (proj2 (dispatch_none _ "1:2:3:4:5")). right. cbn. lia.
Defined.

(** ** Selection: what is found, and what is passed over *)

Lemma regular_other_admin (asn : string) (candidates : list candidate) :
  Forall (other_admin asn) candidates ->
  forall content, _try_candidates_regular asn content candidates = Ok None.
Proof.
  induction 1 as [| c rest (g & Hg & Hne) _ IH]; intros content;
    [reflexivity |].
  cbn [_try_candidates_regular]. rewrite Hg. cbn [getitem bind].
  replace (String.eqb asn (Py.str g)) with false; [apply IH |].
  symmetry. apply String.eqb_neq. congruence.
Qed.

Lemma large_other_admin (asn : string) (candidates : list candidate) :
  Forall (other_admin asn) candidates ->
  forall content1 content2,
    _try_candidates_large asn content1 content2 candidates = Ok None.
Proof.
  induction 1 as [| c rest (g & Hg & Hne) _ IH]; intros content1 content2;
    [reflexivity |].
  cbn [_try_candidates_large]. rewrite Hg. cbn [getitem bind].
  replace (String.eqb asn (Py.str g)) with false; [apply IH |].
  symmetry. apply String.eqb_neq. congruence.
Qed.

(** X5: A regular or large community whose administrator no loaded
    definition has gets the answer [None]: the definitions of other
    administrators are passed over on their [globaladmin] alone, whatever
    else they hold or lack. *)
Theorem unknown_admin_is_no_match (self : BGPCommunityParser)
  (a b c tail : string) :
  is_numeral a = true -> is_numeral b = true -> is_numeral c = true ->
  line_end tail ->
  (Forall (other_admin a) (comm_regular self) ->
   parse_community self (a ++ String ":" (b ++ tail)) = Ok None) /\
  (Forall (other_admin a) (comm_large self) ->
   parse_community self (a ++ String ":" (b ++ String ":" (c ++ tail)))
   = Ok None).
Proof.
  intros Ha Hb Hc Ht. split; intros Hall.
  - rewrite dispatch_regular_core by (exists a, b, tail; auto).
    unfold parse_regular_community.
    rewrite split_head by now apply numeral_no_colon.
    rewrite split_zero, regular_other_admin by assumption. reflexivity.
  - rewrite dispatch_large_core by (exists a, b, c, tail; auto).
    unfold parse_large_community.
    rewrite !split_head by now apply numeral_no_colon.
    rewrite split_zero, large_other_admin by assumption. reflexivity.
Qed.

Lemma unknown_admin_is_no_match_witness :
  parse_community
    (mk_parser [regular_binary_never; regular_decimal_five]
       [large_binary_never] []) "64999:5" = Ok None /\
  parse_community
    (mk_parser [regular_binary_never; regular_decimal_five]
       [large_binary_never] []) "64999:5:7" = Ok None.
Proof.
  destruct (unknown_admin_is_no_match
              (mk_parser [regular_binary_never; regular_decimal_five]
                 [large_binary_never] [])
              "64999" "5" "7" "" eq_refl eq_refl eq_refl (or_introl eq_refl))
    as [H1 H2].
  split.
  - apply H1. repeat constructor; exists 65000; (split; [reflexivity |]);
      discriminate.
  - apply H2. repeat constructor; exists 65000; (split; [reflexivity |]);
      discriminate.
Defined.

Ltac tidy_tests :=
  repeat match goal with
    | H : negb _ = false |- _ => apply negb_false_iff in H
    | H : (_ =? _)%Z = true |- _ => apply Z.eqb_eq in H
    | H : String.eqb _ _ = true |- _ => apply String.eqb_eq in H
    end.

(** X7: The definition [_try_candidates_regular] or [_try_candidates_large]
    returns is one of the list, and its [globaladmin] renders as the
    administrator looked for. *)
Theorem found_has_the_administrator (asn : string)
  (candidates : list candidate) (found : candidate) :
  (forall content,
     _try_candidates_regular asn content candidates = Ok (Some found) ->
     In found candidates /\
     exists g, key_globaladmin found = Some g /\ asn = Py.str g) /\
  (forall content1 content2,
     _try_candidates_large asn content1 content2 candidates
     = Ok (Some found) ->
     In found candidates /\
     exists g, key_globaladmin found = Some g /\ asn = Py.str g).
Proof.
  split.
  - induction candidates as [| c rest IH]; intros content H;
      [discriminate H |].
    cbn [_try_candidates_regular] in H.
    repeat step_in H;
      try (destruct (IH _ H) as [Hin Hg]; split; [now right | exact Hg]).
    all: injection H as <-; tidy_tests; split; [now left | eauto].
  - induction candidates as [| c rest IH]; intros content1 content2 H;
      [discriminate H |].
    cbn [_try_candidates_large] in H.
    repeat step_in H;
      try (destruct (IH _ _ H) as [Hin Hg]; split; [now right | exact Hg]).
    all: injection H as <-; tidy_tests; split; [now left | eauto].
Qed.

Lemma found_has_the_administrator_witness :
  In regular_decimal_five [regular_decimal_five; regular_binary_never] /\
  exists g, key_globaladmin regular_decimal_five = Some g /\
            "65000" = Py.str g.
Proof.
  apply (proj1 (found_has_the_administrator "65000"
                  [regular_decimal_five; regular_binary_never]
                  regular_decimal_five) "5").
  vm_compute. reflexivity.
Defined.

Lemma extended_found_has_passed_core (extype exsubtype asn content : string)
  (candidates : list candidate) (found : candidate) :
  _try_candidates_extended extype exsubtype asn content candidates
  = Ok (Some found) ->
  In found candidates /\
  (exists t st,
     Py.int_of 16 extype = Ok t /\ key_type found = Some t /\
     Py.int_of 16 exsubtype = Ok st /\ key_subtype found = Some st) /\
  extended_admin_ok asn found = true /\
  (exists la cfields tested,
     key_localadmin found = Some la /\ key_fields la = Some cfields /\
     (if format_is_binary la then
        match key_asn4 found with
        | Some _ => _decimal2bits content 16
        | None => _decimal2bits content 32
        end
      else Ok content) = Ok tested /\
     _try_candidate_fields tested cfields = Ok true).
Proof.
  induction candidates as [| c rest IH]; intros H; [discriminate H |].
  cbn [_try_candidates_extended] in H.
  destruct (Py.int_of 16 extype) as [t |] eqn:Ht; [| discriminate H].
  cbn [bind] in H.
  destruct (key_type c) as [ct |] eqn:Hct; [| discriminate H].
  cbn [getitem bind] in H.
  destruct (negb (t =? ct)) eqn:Et.
  { destruct (IH H) as (Hin & Hrest). split; [now right | exact Hrest]. }
  destruct (Py.int_of 16 exsubtype) as [st |] eqn:Hst; [| discriminate H].
  cbn [bind] in H.
  destruct (key_subtype c) as [cst |] eqn:Hcst; [| discriminate H].
  cbn [getitem bind] in H.
  destruct (negb (st =? cst)) eqn:Est.
  { destruct (IH H) as (Hin & Hrest). split; [now right | exact Hrest]. }
  destruct (extended_admin_ok asn c) eqn:Hadm; cbn [negb] in H.
  2: { destruct (IH H) as (Hin & Hrest). split; [now right | exact Hrest]. }
  destruct (key_localadmin c) as [la |] eqn:Hla; [| discriminate H].
  cbn [getitem bind] in H.
  destruct (if format_is_binary la then _ else _) as [tested |] eqn:Htested;
    [| discriminate H].
  cbn [bind] in H.
  destruct (key_fields la) as [cfields |] eqn:Hf; [| discriminate H].
  cbn [getitem bind] in H.
  destruct (_try_candidate_fields tested cfields) as [[|] |] eqn:Hok;
    cbn [bind] in H; try discriminate H.
  2: { destruct (IH H) as (Hin & Hrest). split; [now right | exact Hrest]. }
  injection H as <-. tidy_tests. subst ct cst.
  split; [now left |]. split; [eauto 10 |]. split; [exact Hadm |].
  exists la, cfields, tested. auto.
Qed.

(** X8: The definition [_try_candidates_extended] returns is one of the
    list; its [type] and [subtype] are the numbers the two octets denote
    in base 16; the administrator equals its [asn], or its [asn4] where it
    has no [asn]; and its fields fit the content, transformed where its
    local administrator is binary. *)
Theorem extended_found_has_passed (extype exsubtype asn content : string)
  (candidates : list candidate) (found : candidate) :
  _try_candidates_extended extype exsubtype asn content candidates
  = Ok (Some found) ->
  In found candidates /\
  (exists t st,
     Py.int_of 16 extype = Ok t /\ key_type found = Some t /\
     Py.int_of 16 exsubtype = Ok st /\ key_subtype found = Some st) /\
  extended_admin_ok asn found = true /\
  (exists la cfields tested,
     key_localadmin found = Some la /\ key_fields la = Some cfields /\
     (if format_is_binary la then
        match key_asn4 found with
        | Some _ => _decimal2bits content 16
        | None => _decimal2bits content 32
        end
      else Ok content) = Ok tested /\
     _try_candidate_fields tested cfields = Ok true).
Proof. apply extended_found_has_passed_core. Qed.

Lemma extended_found_has_passed_witness :
  In extended_asn_32 [extended_asn_32] /\
  (exists t st,
     Py.int_of 16 "0x00" = Ok t /\ key_type extended_asn_32 = Some t /\
     Py.int_of 16 "0x02" = Ok st /\ key_subtype extended_asn_32 = Some st) /\
  extended_admin_ok "65000" extended_asn_32 = true /\
  (exists la cfields tested,
     key_localadmin extended_asn_32 = Some la /\
     key_fields la = Some cfields /\
     (if format_is_binary la then
        match key_asn4 extended_asn_32 with
        | Some _ => _decimal2bits "1" 16
        | None => _decimal2bits "1" 32
        end
      else Ok "1") = Ok tested /\
     _try_candidate_fields tested cfields = Ok true).
Proof.
  apply (extended_found_has_passed "0x00" "0x02" "65000" "1"
           [extended_asn_32] extended_asn_32).
  vm_compute. reflexivity.
Defined.

(** X9: A definition with neither [asn] nor [asn4] is never the one
    [_try_candidates_extended] returns. *)
Theorem extended_without_admin_never_found
  (extype exsubtype asn content : string) (candidates : list candidate)
  (c : candidate) :
  key_asn c = None -> key_asn4 c = None ->
  _try_candidates_extended extype exsubtype asn content candidates
  <> Ok (Some c).
Proof.
  intros Ha Ha4 H. apply extended_found in H as [_ Hadm].
  unfold extended_admin_ok in Hadm. rewrite Ha, Ha4 in Hadm.
  discriminate Hadm.
Qed.

Lemma extended_without_admin_never_found_witness :
  _try_candidates_extended "0x00" "0x02" "65000" "1"
    [mk_extended 0 2 None None (mk_local None [])]
  <> Ok (Some (mk_extended 0 2 None None (mk_local None []))).
Proof.
  apply extended_without_admin_never_found; reflexivity.
Defined.

(** ** Regular and large communities without binary definitions *)

Lemma regular_app_decimal (asn : string) (l1 l2 : list candidate) :
  Forall decimal_regular l1 ->
  forall content,
    _try_candidates_regular asn content (l1 ++ l2)%list =
    match _try_candidates_regular asn content l1 with
    | Ok None => _try_candidates_regular asn content l2
    | r => r
    end.
Proof.
  induction 1 as [| c l1 Hc _ IH]; intros content; [reflexivity |].
  cbn [app _try_candidates_regular].
  destruct (key_globaladmin c) as [g |]; cbn [getitem bind];
    [| reflexivity].
  destruct (negb (String.eqb asn (Py.str g))); [apply IH |].
  destruct (key_localadmin c) as [la |] eqn:Hla; cbn [getitem bind];
    [| reflexivity].
  rewrite (Hc la) by first [exact Hla | reflexivity]. cbn [bind].
  repeat step_goal; auto.
Qed.

Lemma large_app_decimal (asn : string) (l1 l2 : list candidate) :
  Forall decimal_large l1 ->
  forall content1 content2,
    _try_candidates_large asn content1 content2 (l1 ++ l2)%list =
    match _try_candidates_large asn content1 content2 l1 with
    | Ok None => _try_candidates_large asn content1 content2 l2
    | r => r
    end.
Proof.
  induction 1 as [| c l1 [Hc1 Hc2] _ IH]; intros content1 content2;
    [reflexivity |].
  cbn [app _try_candidates_large].
  destruct (key_globaladmin c) as [g |]; cbn [getitem bind];
    [| reflexivity].
  destruct (negb (String.eqb asn (Py.str g))); [apply IH |].
  destruct (key_localdatapart1 c) as [p1 |] eqn:Hp1; cbn [getitem bind];
    [| reflexivity].
  rewrite (Hc1 p1) by first [exact Hp1 | reflexivity]. cbn [bind].
  destruct (key_localdatapart2 c) as [p2 |] eqn:Hp2; cbn [getitem bind];
    [| reflexivity].
  rewrite (Hc2 p2) by first [exact Hp2 | reflexivity]. cbn [bind].
  repeat step_goal; auto.
Qed.

(** What a first-match search finds over [l ++ d ++ d] is what it finds
    over [l ++ d], where the search splits over the two concatenations. *)
Lemma twice_is_once {A : Type} (search : list candidate -> result (option A))
  (l d : list candidate) :
  search ((l ++ d) ++ d)%list =
    match search (l ++ d)%list with
    | Ok None => search d
    | r => r
    end ->
  search (l ++ d)%list =
    match search l with
    | Ok None => search d
    | r => r
    end ->
  search ((l ++ d) ++ d)%list = search (l ++ d)%list.
Proof.
  intros H1 H2. rewrite H1.
  destruct (search (l ++ d)%list) as [[found |] | err] eqn:E;
    try reflexivity.
  destruct (search l) as [[found |] | err]; try discriminate H2.
  now symmetry.
Qed.

(** X15: Where neither the parser nor the document has a binary regular or
    large definition, loading the document a second time changes the
    answer of [parse_community] for no text. *)
Theorem second_load_is_idle_without_binary (self : BGPCommunityParser)
  (source : string) (jdata : document) (community : string) :
  Forall decimal_regular (comm_regular self) ->
  Forall decimal_regular (regular jdata) ->
  Forall decimal_large (comm_large self) ->
  Forall decimal_large (large jdata) ->
  parse_community
    (load_source (load_source self source jdata) source jdata) community
  = parse_community (load_source self source jdata) community.
Proof.
  intros Hr Hrd Hl Hld.
  assert (Hreg :
    parse_regular_community
      (load_source (load_source self source jdata) source jdata) community
    = parse_regular_community (load_source self source jdata) community).
  { unfold parse_regular_community.
    destruct (Py.split ":" 1 community) as [| a [| b [| c l]]];
      try reflexivity.
    cbn [load_source comm_regular].
    rewrite (twice_is_once (_try_candidates_regular a b)); [reflexivity | |];
      apply regular_app_decimal; [apply Forall_app; split |]; assumption. }
  assert (Hlarge :
    parse_large_community
      (load_source (load_source self source jdata) source jdata) community
    = parse_large_community (load_source self source jdata) community).
  { unfold parse_large_community.
    destruct (Py.split ":" 2 community) as [| a [| b [| c [| d l]]]];
      try reflexivity.
    cbn [load_source comm_large].
    rewrite (twice_is_once (_try_candidates_large a b c)); [reflexivity | |];
      apply large_app_decimal; [apply Forall_app; split |]; assumption. }
  unfold parse_community.
  rewrite Hreg, Hlarge, extended_second_load_is_idle. reflexivity.
Qed.

Lemma second_load_is_idle_without_binary_witness :
  parse_community
    (load_source
       (load_source empty_parser "doc.json"
          (mk_document [regular_decimal_bits; regular_decimal_five]
             [large_decimal_seven] [extended_asn_hi_lo]))
       "doc.json"
       (mk_document [regular_decimal_bits; regular_decimal_five]
          [large_decimal_seven] [extended_asn_hi_lo]))
    "65000:5"
  = parse_community
      (load_source empty_parser "doc.json"
         (mk_document [regular_decimal_bits; regular_decimal_five]
            [large_decimal_seven] [extended_asn_hi_lo]))
      "65000:5".
Proof.
  apply second_load_is_idle_without_binary;
    repeat constructor; intros la [= <-]; reflexivity.
Defined.

(** ** Extraction *)

Lemma slice_fields_lookup (contentbits : string) (foffset : nat)
  (flds : list field_def) :
  forall (fid : nat) (pos : Z) (fields : gmap nat string),
    (forall k, (k < foffset + fid)%nat ->
       slice_fields contentbits foffset fid pos flds fields !! k
       = fields !! k) /\
    (forall i,
       slice_fields contentbits foffset fid pos flds fields
         !! (foffset + fid + i)%nat
       = match segments contentbits pos flds !! i with
         | Some v => Some v
         | None => fields !! (foffset + fid + i)%nat
         end).
Proof.
  induction flds as [| f flds IH]; intros fid pos fields;
    cbn [slice_fields segments].
  - split; [reflexivity |]. intros i. reflexivity.
  - fold (field_width contentbits f).
    set (v := Py.slice contentbits pos _).
    set (pos' := pos + _).
    destruct (IH (S fid) pos' (<[(foffset + fid)%nat := v]> fields))
      as [Hlow Hseg].
    split.
    + intros k Hk. rewrite Hlow by lia. apply lookup_insert_ne. lia.
    + intros [| i].
      * rewrite Nat.add_0_r. rewrite Hlow by lia.
        cbn. apply lookup_insert_eq.
      * replace (foffset + fid + S i)%nat with (foffset + S fid + i)%nat
          by lia.
        rewrite Hseg. cbn [lookup list_lookup].
        change ((v :: segments contentbits pos' flds) !! S i)
          with (segments contentbits pos' flds !! i).
        destruct (segments contentbits pos' flds !! i); [reflexivity |].
        apply lookup_insert_ne. lia.
Qed.

Lemma length_segments (contentbits : string) (flds : list field_def) :
  forall pos, List.length (segments contentbits pos flds) = List.length flds.
Proof.
  induction flds as [| f flds IH]; intros pos; cbn; [| rewrite IH];
    reflexivity.
Qed.

(** X16: What [_candidate2fields] returns holds, under the keys 0, 1, ... in
    field order, the slices of the content (transformed at width 16 where
    the local administrator is binary), and no other key. *)
Theorem candidate2fields_is_segments (content : string) (la : local_def)
  (fieldvals : gmap nat string) :
  _candidate2fields content la = Ok fieldvals ->
  exists bits flds,
    (if format_is_binary la then _decimal2bits content 16 else Ok content)
    = Ok bits /\
    key_fields la = Some flds /\
    forall k : nat, fieldvals !! k = segments bits 0 flds !! k.
Proof.
  unfold _candidate2fields. intros H.
  destruct (if format_is_binary la then _ else _) as [bits |];
    [| discriminate H].
  cbn [bind] in H.
  destruct (key_fields la) as [flds |]; [| discriminate H].
  cbn [getitem bind] in H. injection H as <-.
  exists bits, flds. repeat split. intros k.
  destruct (slice_fields_lookup bits 0 flds 0 0 ∅) as [_ Hseg].
  specialize (Hseg k). cbn [Nat.add] in Hseg. rewrite Hseg.
  destruct (segments bits 0 flds !! k); [reflexivity | apply lookup_empty].
Qed.

Lemma candidate2fields_is_segments_witness :
  exists bits flds,
    (if format_is_binary (mk_local (Some "binary") fields_hi_lo)
     then _decimal2bits "1" 16 else Ok "1") = Ok bits /\
    key_fields (mk_local (Some "binary") fields_hi_lo) = Some flds /\
    forall k : nat,
      (<[1%nat := ""]> (<[0%nat := "0000000000000001"]> ∅)
         : gmap nat string) !! k
      = segments bits 0 flds !! k.
Proof.
  apply (candidate2fields_is_segments "1"
           (mk_local (Some "binary") fields_hi_lo)).
  vm_compute. reflexivity.
Defined.

(** X17: What [_candidate2fields_large] returns holds the slices of the first
    content under the keys 0, 1, ... and the slices of the second content
    under the keys that follow, each content transformed at width 32
    where its part is binary, and no other key. *)
Theorem candidate2fields_large_is_segments (content1 content2 : string)
  (p1 p2 : local_def) (fieldvals : gmap nat string) :
  _candidate2fields_large content1 content2 p1 p2 = Ok fieldvals ->
  exists bits1 bits2 flds1 flds2,
    (if format_is_binary p1 then _decimal2bits content1 32 else Ok content1)
    = Ok bits1 /\
    (if format_is_binary p2 then _decimal2bits content2 32 else Ok content2)
    = Ok bits2 /\
    key_fields p1 = Some flds1 /\ key_fields p2 = Some flds2 /\
    forall k : nat,
      fieldvals !! k
      = (segments bits1 0 flds1 ++ segments bits2 0 flds2)%list !! k.
Proof.
  unfold _candidate2fields_large. intros H.
  destruct (if format_is_binary p1 then _ else _) as [bits1 |];
    [| discriminate H].
  cbn [bind] in H.
  destruct (if format_is_binary p2 then _ else _) as [bits2 |];
    [| discriminate H].
  cbn [bind] in H.
  destruct (key_fields p1) as [flds1 |]; [| discriminate H].
  cbn [getitem bind] in H.
  destruct (key_fields p2) as [flds2 |]; [| discriminate H].
  cbn [getitem bind] in H. injection H as <-.
  exists bits1, bits2, flds1, flds2. repeat split. intros k.
  set (m1 := slice_fields bits1 0 0 0 flds1 ∅).
  destruct (slice_fields_lookup bits2 (List.length flds1) flds2 0 0 m1)
    as [Hlow Hseg].
  assert (Hm1 : forall j, m1 !! j = segments bits1 0 flds1 !! j).
  { intros j. destruct (slice_fields_lookup bits1 0 flds1 0 0 ∅) as [_ H1].
    specialize (H1 j). cbn [Nat.add] in H1. unfold m1. rewrite H1.
    destruct (segments bits1 0 flds1 !! j); [reflexivity |].
    apply lookup_empty. }
  destruct (Nat.lt_ge_cases k (List.length flds1)) as [Hk | Hk].
  - rewrite Hlow by lia. rewrite Hm1.
    rewrite lookup_app_l by (rewrite length_segments; exact Hk).
    reflexivity.
  - replace k with (List.length flds1 + 0 + (k - List.length flds1))%nat
      at 1 by lia.
    rewrite Hseg.
    rewrite lookup_app_r by (rewrite length_segments; exact Hk).
    rewrite length_segments.
    destruct (segments bits2 0 flds2 !! (k - List.length flds1)%nat);
      [reflexivity |].
    rewrite Hm1. apply lookup_ge_None_2. rewrite length_segments. lia.
Qed.

Lemma candidate2fields_large_is_segments_witness :
  exists bits1 bits2 flds1 flds2,
    (if format_is_binary (mk_local None fields_one_then_zeros)
     then _decimal2bits "100" 32 else Ok "100") = Ok bits1 /\
    (if format_is_binary (mk_local None [mk_field "q" "7" None None])
     then _decimal2bits "7" 32 else Ok "7") = Ok bits2 /\
    key_fields (mk_local None fields_one_then_zeros) = Some flds1 /\
    key_fields (mk_local None [mk_field "q" "7" None None]) = Some flds2 /\
    forall k : nat,
      (<[2%nat := "7"]> (<[1%nat := "00"]> (<[0%nat := "1"]> ∅))
         : gmap nat string) !! k
      = (segments bits1 0 flds1 ++ segments bits2 0 flds2)%list !! k.
Proof.
  apply (candidate2fields_large_is_segments "100" "7"
           (mk_local None fields_one_then_zeros)
           (mk_local None [mk_field "q" "7" None None])).
  vm_compute. reflexivity.
Defined.

(** *** Slices that follow each other *)

Lemma substring_app (s : string) :
  forall a n m : nat,
    substring a n s ++ substring (a + n) m s = substring a (n + m) s.
Proof.
  induction s as [| c s IH]; intros a n m.
  - destruct a, n, m; reflexivity.
  - destruct a as [| a].
    + destruct n as [| n]; [reflexivity |].
      cbn [Nat.add substring String.append]. f_equal.
      apply (IH O n m).
    + cbn [Nat.add substring]. apply IH.
Qed.

Lemma substring_whole (s : string) : substring 0 (String.length s) s = s.
Proof. induction s as [| c s IH]; cbn; [| rewrite IH]; reflexivity. Qed.

Lemma substring_beyond (s : string) (n : nat) :
  (String.length s <= n)%nat -> substring 0 n s = s.
Proof.
  revert n. induction s as [| c s IH]; intros n Hn.
  - destruct n; reflexivity.
  - destruct n as [| n]; cbn in Hn; [lia |].
    cbn. rewrite IH by lia. reflexivity.
Qed.

Lemma slice_app (s : string) (a l1 l2 : Z) :
  0 <= a -> 0 <= l1 -> 0 <= l2 ->
  Py.slice s a (a + l1) ++ Py.slice s (a + l1) (a + l1 + l2)
  = Py.slice s a (a + l1 + l2).
Proof.
  intros Ha H1 H2. unfold Py.slice, Py.clamp.
  set (len := Z.of_nat (String.length s)).
  replace (a <? 0) with false by (symmetry; apply Z.ltb_ge; lia).
  replace (a + l1 <? 0) with false by (symmetry; apply Z.ltb_ge; lia).
  replace (a + l1 + l2 <? 0) with false by (symmetry; apply Z.ltb_ge; lia).
  set (A := Z.to_nat (Z.min a len)).
  replace (Z.to_nat (Z.min (a + l1) len))
    with (A + Z.to_nat (Z.min (a + l1) len - Z.min a len))%nat
    by (subst A; clearbody len; lia).
  rewrite substring_app. f_equal. subst A. clearbody len. lia.
Qed.

Lemma slice_from_start (s : string) (b : Z) :
  Py.len s <= b -> Py.slice s 0 b = s.
Proof.
  unfold Py.len, Py.slice, Py.clamp. intros Hb. cbn [Z.ltb Z.compare].
  replace (b <? 0) with false by (symmetry; apply Z.ltb_ge; lia).
  rewrite (Z.min_l 0) by lia. rewrite (Z.min_r b) by lia.
  rewrite Z.sub_0_r, Nat2Z.id. apply substring_whole.
Qed.

Lemma slice_nothing (s : string) (a : Z) : Py.slice s a a = "".
Proof.
  unfold Py.slice. rewrite Z.sub_diag. cbn [Z.to_nat].
  generalize (Z.to_nat
                (Py.clamp (Z.of_nat (String.length s)) a)) as n.
  induction s as [| c s IH]; intros [| n]; try reflexivity.
  cbn [substring]. apply IH.
Qed.

Lemma total_width_nonneg (contentbits : string) (flds : list field_def) :
  Forall (fun f => 0 <= field_width contentbits f) flds ->
  0 <= total_width contentbits flds.
Proof.
  induction 1 as [| f flds Hf _ IH]; cbn [total_width]; lia.
Qed.

Lemma join_segments (contentbits : string) (flds : list field_def) :
  Forall (fun f => 0 <= field_width contentbits f) flds ->
  forall pos, 0 <= pos ->
    Py.join "" (segments contentbits pos flds)
    = Py.slice contentbits pos (pos + total_width contentbits flds).
Proof.
  induction 1 as [| f flds Hf Hrest IH]; intros pos Hpos.
  - cbn [segments Py.join total_width]. rewrite Z.add_0_r.
    symmetry. apply slice_nothing.
  - cbn [segments total_width].
    pose proof (total_width_nonneg _ _ Hrest) as Htot.
    specialize (IH (pos + field_width contentbits f) ltac:(lia)).
    rewrite Z.add_assoc. rewrite <- slice_app by assumption.
    rewrite <- IH.
    destruct (segments contentbits (pos + field_width contentbits f) flds)
      as [| x l] eqn:E.
    + cbn [Py.join]. now rewrite append_empty.
    + reflexivity.
Qed.

(** X18: Where no field has a negative length and the fields together are at
    least as long as the content, the slices of extraction, put one after
    the other, give the content back: nothing is lost and nothing comes
    twice. *)
Theorem segments_give_the_content_back (contentbits : string)
  (flds : list field_def) :
  Forall (fun f => 0 <= field_width contentbits f) flds ->
  Py.len contentbits <= total_width contentbits flds ->
  Py.join "" (segments contentbits 0 flds) = contentbits.
Proof.
  intros Hnonneg Hcover.
  rewrite join_segments by (assumption || lia).
  now apply slice_from_start.
Qed.

Lemma segments_give_the_content_back_witness :
  Py.join "" (segments "1001110001000000" 0
                [mk_field "flag" "1" (Some 1) None;
                 mk_field "id" "\d+" None None])
  = "1001110001000000".
Proof.
  apply segments_give_the_content_back.
  - repeat constructor; vm_compute; discriminate.
  - vm_compute. discriminate.
Defined.

(** X19: Where every field has a length, the values that
    [_try_candidate_fields] tests on a content are the slices that the
    loop of [_candidate2fields] stores for the same content, key by key. *)
Theorem lengthed_fields_tested_as_extracted (content : string)
  (flds : list field_def) :
  Forall (fun f => key_length f <> None) flds ->
  forall k : nat,
    slice_fields content 0 0 0 flds ∅ !! k
    = tested_values 0 content flds !! k.
Proof.
  intros Hall k.
  destruct (slice_fields_lookup content 0 flds 0 0 ∅) as [_ Hseg].
  specialize (Hseg k). cbn [Nat.add] in Hseg. rewrite Hseg.
  assert (E : forall pos,
            segments content pos flds = tested_values pos content flds).
  { clear Hseg k. induction Hall as [| f flds Hf _ IH]; intros pos;
      [reflexivity |].
    cbn [segments tested_values]. unfold field_width.
    destruct (key_length f) as [l |]; [| congruence].
    now rewrite IH. }
  rewrite E.
  destruct (tested_values 0 content flds !! k); [reflexivity |].
  apply lookup_empty.
Qed.

Lemma lengthed_fields_tested_as_extracted_witness :
  slice_fields "00000000000000000000000000000001" 0 0 0 fields_hi_lo ∅
    !! 1%nat
  = tested_values 0 "00000000000000000000000000000001" fields_hi_lo
      !! 1%nat.
Proof.
  apply (lengthed_fields_tested_as_extracted
           "00000000000000000000000000000001" fields_hi_lo).
  repeat constructor; discriminate.
Defined.

(** ** [_decimal2bits] read back *)

Lemma bits_value_zeros (k : nat) (s : string) :
  bits_value 0 (Py.zeros k ++ s) = bits_value 0 s.
Proof. induction k as [| k IH]; [reflexivity | exact IH]. Qed.

Lemma decimal2bits_round_trip_core (v : string) (w : nat) :
  is_numeral v = true ->
  exists bits,
    _decimal2bits v w = Ok bits /\
    bits_value 0 bits = Some (numeral_value v) /\
    (w <= String.length bits)%nat.
Proof.
  intros Hv. rewrite (decimal2bits_numeral v w Hv). eexists.
  split; [reflexivity |]. split.
  - rewrite bits_value_zeros. apply bin_is_binary_representation.
  - rewrite length_append, length_zeros. lia.
Qed.

(** X20: The digits [_decimal2bits] gives for a numeral denote, read in base 2,
    the value of the numeral, and they are at least as many as the
    width. *)
Theorem decimal2bits_round_trip (v : string) (w : nat) :
  is_numeral v = true ->
  exists bits,
    _decimal2bits v w = Ok bits /\
    bits_value 0 bits = Some (numeral_value v) /\
    (w <= String.length bits)%nat.
Proof. apply decimal2bits_round_trip_core. Qed.

Lemma decimal2bits_round_trip_witness :
  exists bits,
    _decimal2bits "40000" 16 = Ok bits /\
    bits_value 0 bits = Some (numeral_value "40000") /\
    (16 <= String.length bits)%nat.
Proof. apply decimal2bits_round_trip. reflexivity. Defined.

(** X21: Two numerals that [_decimal2bits] maps to the same digits, at
    whatever widths, have the same value. *)
Theorem decimal2bits_injective (v1 v2 : string) (w1 w2 : nat) :
  is_numeral v1 = true -> is_numeral v2 = true ->
  _decimal2bits v1 w1 = _decimal2bits v2 w2 ->
  numeral_value v1 = numeral_value v2.
Proof.
  intros H1 H2 E.
  destruct (decimal2bits_round_trip_core v1 w1 H1) as (b1 & E1 & V1 & _).
  destruct (decimal2bits_round_trip_core v2 w2 H2) as (b2 & E2 & V2 & _).
  rewrite E1, E2 in E. injection E as <-. congruence.
Qed.

Lemma decimal2bits_injective_witness :
  numeral_value "5" = numeral_value "005".
Proof.
  apply (decimal2bits_injective "5" "005" 8 8); reflexivity.
Defined.

(** ** Rendering *)

Lemma output_fields_described (flds : list field_def) :
  described flds ->
  forall (fv1 fv2 : gmap nat string) offset fid,
    output_fields fv1 offset fid flds = output_fields fv2 offset fid flds.
Proof.
  induction 1 as [| f flds Hf _ IH]; intros fv1 fv2 offset fid;
    [reflexivity |].
  cbn [output_fields].
  destruct (key_name f) as [name |]; cbn [getitem bind]; [| reflexivity].
  destruct (key_description f) as [d |]; [| congruence].
  cbn [bind]. now rewrite (IH fv1 fv2 offset (S fid)).
Qed.

(** X22: Where every field of a definition has a description, what
    [_print_match] renders depends neither on the extracted values nor on
    the community text: it is the same for every community the definition
    is found for. *)
Theorem described_fields_render_alike (c : candidate)
  (community1 community2 : string) (fv1 fv2 : gmap nat string) :
  all_described c ->
  _print_match community1 c fv1 = _print_match community2 c fv2.
Proof.
  unfold all_described, _print_match. intros H.
  destruct (key_localadmin c) as [la |].
  - destruct (key_fields la) as [flds |]; cbn [getitem bind];
      [| reflexivity].
    now rewrite (output_fields_described flds (H flds eq_refl) fv1 fv2).
  - destruct H as [H1 H2].
    destruct (key_localdatapart1 c) as [p1 |]; [| reflexivity].
    destruct (key_fields p1) as [flds1 |] eqn:E1; cbn [getitem bind];
      [| reflexivity].
    rewrite (output_fields_described flds1 (H1 p1 flds1 eq_refl E1) fv1 fv2).
    destruct (output_fields fv2 0 0 flds1); cbn [bind]; [| reflexivity].
    destruct (key_localdatapart2 c) as [p2 |]; cbn [getitem bind];
      [| reflexivity].
    destruct (key_fields p2) as [flds2 |] eqn:E2; cbn [getitem bind];
      [| reflexivity].
    now rewrite (output_fields_described flds2 (H2 p2 flds2 eq_refl E2)
                   fv1 fv2).
Qed.

Lemma described_fields_render_alike_witness :
  _print_match "65000:1"
    (mk_regular 65000
       (mk_local None [mk_field "role" "\d+" None (Some "customer")]))
    (<[0%nat := "1"]> ∅)
  = _print_match "65000:2"
      (mk_regular 65000
         (mk_local None [mk_field "role" "\d+" None (Some "customer")]))
      (<[0%nat := "2"]> ∅).
Proof.
  apply described_fields_render_alike.
  intros flds [= <-]. repeat constructor. discriminate.
Defined.

(** ** Construction *)

Lemma fold_load_source (srcs : list (string * document)) :
  forall self,
    let final :=
      fold_left (fun self sd => load_source self (fst sd) (snd sd))
        srcs self in
    comm_regular final
    = (comm_regular self
       ++ List.concat (List.map (fun sd => regular (snd sd)) srcs))%list /\
    comm_large final
    = (comm_large self
       ++ List.concat (List.map (fun sd => large (snd sd)) srcs))%list /\
    comm_extended final
    = (comm_extended self
       ++ List.concat (List.map (fun sd => extended (snd sd)) srcs))%list /\
    sources final = (sources self ++ List.map fst srcs)%list.
Proof.
  induction srcs as [| sd srcs IH]; intros self; cbn zeta.
  - cbn [fold_left List.map List.concat]. now rewrite !app_nil_r.
  - cbn [fold_left List.map List.concat].
    destruct (IH (load_source self (fst sd) (snd sd))) as (H1 & H2 & H3 & H4).
    rewrite H1, H2, H3, H4. cbn [load_source comm_regular comm_large
                              comm_extended sources].
    now rewrite <- !app_assoc.
Qed.

Lemma init_keeps_every_definition_in_order_core
  (srcs : list (string * document)) :
  comm_regular (__init__ srcs)
  = List.concat (List.map (fun sd => regular (snd sd)) srcs) /\
  comm_large (__init__ srcs)
  = List.concat (List.map (fun sd => large (snd sd)) srcs) /\
  comm_extended (__init__ srcs)
  = List.concat (List.map (fun sd => extended (snd sd)) srcs) /\
  sources (__init__ srcs) = List.map fst srcs.
Proof. exact (fold_load_source srcs empty_parser). Qed.

(** X27: The parser [__init__] builds holds, per kind, the definitions of all
    documents in the order of the sources and, within a document, in its
    own order; nothing is dropped, merged or moved. *)
Theorem init_keeps_every_definition_in_order
  (srcs : list (string * document)) :
  comm_regular (__init__ srcs)
  = List.concat (List.map (fun sd => regular (snd sd)) srcs) /\
  comm_large (__init__ srcs)
  = List.concat (List.map (fun sd => large (snd sd)) srcs) /\
  comm_extended (__init__ srcs)
  = List.concat (List.map (fun sd => extended (snd sd)) srcs) /\
  sources (__init__ srcs) = List.map fst srcs.
Proof. apply init_keeps_every_definition_in_order_core. Qed.

Lemma length_concat_map {A : Type} (f : A -> list candidate) (l : list A) :
  List.length (List.concat (List.map f l))
  = list_sum (List.map (fun x => List.length (f x)) l).
Proof.
  induction l as [| x l IH]; [reflexivity |].
  cbn [List.map List.concat list_sum]. now rewrite List.length_app, IH.
Qed.

(** X28: [__str__] of a parser built by [__init__] reports the number of
    sources and, per kind, the sum of the numbers of definitions of the
    documents. *)
Theorem str_reports_the_totals (srcs : list (string * document)) :
  __str__ (__init__ srcs) =
  "BGPCommunityParser object with "
  ++ Py.str (Z.of_nat (List.length srcs)) ++ " sources, "
  ++ Py.str (Z.of_nat (list_sum
       (List.map (fun sd => List.length (regular (snd sd))) srcs)))
  ++ " regular, "
  ++ Py.str (Z.of_nat (list_sum
       (List.map (fun sd => List.length (large (snd sd))) srcs)))
  ++ " large and "
  ++ Py.str (Z.of_nat (list_sum
       (List.map (fun sd => List.length (extended (snd sd))) srcs)))
  ++ " communities".
Proof.
  destruct (init_keeps_every_definition_in_order_core srcs)
    as (H1 & H2 & H3 & H4).
  unfold __str__. rewrite H1, H2, H3, H4.
  now rewrite !length_concat_map, List.length_map.
Qed.

(** ** Anchors *)

Lemma substring_prefix (q t : string) :
  substring 0 (String.length q) (q ++ t) = q.
Proof.
  induction q as [| c q IH]; cbn [String.length String.append substring].
  - destruct t; reflexivity.
  - now rewrite IH.
Qed.

Lemma drop_first_cons (c : ascii) (q : string) :
  Py.drop_first (String c q) = q.
Proof.
  unfold Py.drop_first, Py.slice, Py.clamp, Py.len.
  cbn [String.length Z.ltb Z.compare].
  replace (Z.of_nat (S (String.length q)) <? 0) with false
    by (symmetry; apply Z.ltb_ge; lia).
  rewrite Z.min_id. rewrite Z.min_l by lia.
  replace (Z.to_nat (Z.of_nat (S (String.length q)) - 1))
    with (String.length q) by lia.
  change (Z.to_nat 1) with 1%nat. cbn [substring].
  apply substring_whole.
Qed.

Lemma drop_last_snoc (q : string) (c : ascii) :
  Py.drop_last (q ++ String c "") = q.
Proof.
  unfold Py.drop_last, Py.slice, Py.clamp.
  rewrite length_append. cbn [String.length Z.ltb Z.compare].
  rewrite Z.min_l by lia. cbn [Z.to_nat].
  replace (Z.to_nat (Z.max 0 (-1 + Z.of_nat (String.length q + 1)) - 0))
    with (String.length q) by lia.
  apply substring_prefix.
Qed.

Lemma endswith_snoc (q : string) (c d : ascii) :
  Py.endswith (q ++ String d "") c = Ascii.eqb c d.
Proof.
  induction q as [| x q IH]; [reflexivity |].
  cbn [String.append]. rewrite <- IH.
  destruct q; reflexivity.
Qed.

Lemma startswith_snoc (q : string) (c d : ascii) :
  Py.startswith q c = false -> Ascii.eqb c d = false ->
  Py.startswith (q ++ String d "") c = false.
Proof. destruct q; cbn; auto. Qed.

(** X23: A pattern that does not begin with a caret or end with a dollar
    sign is anchored to the same pattern whether it is written bare,
    with the caret, with the dollar sign, or with both. *)
Theorem anchors_are_optional (p : string) :
  Py.startswith p "^" = false -> Py.endswith p "$" = false ->
  reanchor p = "^" ++ p ++ "$" /\
  reanchor (String "^" p) = "^" ++ p ++ "$" /\
  reanchor (p ++ "$") = "^" ++ p ++ "$" /\
  reanchor (String "^" (p ++ "$")) = "^" ++ p ++ "$".
Proof.
  intros Hs He. unfold reanchor. repeat split.
  - now rewrite Hs, He.
  - cbn [Py.startswith]. rewrite Ascii.eqb_refl.
    now rewrite drop_first_cons, He.
  - rewrite startswith_snoc by (assumption || reflexivity).
    now rewrite endswith_snoc, Ascii.eqb_refl, drop_last_snoc.
  - cbn [Py.startswith]. rewrite Ascii.eqb_refl.
    rewrite drop_first_cons.
    now rewrite endswith_snoc, Ascii.eqb_refl, drop_last_snoc.
Qed.

Lemma anchors_are_optional_witness :
  reanchor "[01]{8}" = "^" ++ "[01]{8}" ++ "$" /\
  reanchor (String "^" "[01]{8}") = "^" ++ "[01]{8}" ++ "$" /\
  reanchor ("[01]{8}" ++ "$") = "^" ++ "[01]{8}" ++ "$" /\
  reanchor (String "^" ("[01]{8}" ++ "$")) = "^" ++ "[01]{8}" ++ "$".
Proof. apply anchors_are_optional; reflexivity. Defined.

(** ** From the community text to the rendered text *)

Lemma str_is_numeral (g : Z) : 0 <= g -> is_numeral (Py.str g) = true.
Proof.
  intros Hg. destruct g as [| p | p]; [reflexivity | | lia].
  unfold Py.str. cbn [Z.to_int NilZero.string_of_int].
  pose proof (Unsigned.to_uint_nonnil p) as Hnil.
  pose proof (all_digits_string_of_uint (Pos.to_uint p)) as Hd.
  destruct (Pos.to_uint p); [congruence | exact Hd ..].
Qed.

Lemma digits_pattern_matches (b tail : string) :
  is_numeral b = true -> line_end tail ->
  Re.re_match "^\d+$" (b ++ tail) = Ok true.
Proof.
  intros Hb Ht. unfold Re.re_match.
  change (Re.compile "^\d+$")
    with (Some (Re.Cat Re.Bol (Re.Cat digits1 at_end))).
  f_equal. eapply in_matches.
  eapply in_run_cat_intro; [now left |].
  eapply in_run_cat_intro; [now apply run_digits1_complete |].
  now apply run_at_end_complete.
Qed.

Lemma decimal_field_found (g : Z) (name b tail : string)
  (rest : list candidate) :
  is_numeral b = true -> line_end tail ->
  _try_candidates_regular (Py.str g) (b ++ tail)
    (mk_regular g (mk_local None [mk_field name "\d+" None None]) :: rest)
  = Ok (Some (mk_regular g
                (mk_local None [mk_field name "\d+" None None]))).
Proof.
  intros Hb Ht.
  cbn [_try_candidates_regular mk_regular key_globaladmin key_localadmin
       getitem bind].
  rewrite String.eqb_refl. cbn [negb].
  change (format_is_binary (mk_local None [mk_field name "\d+" None None]))
    with false.
  cbn [bind mk_local key_fields getitem].
  unfold _try_candidate_fields.
  cbn [try_fields_from mk_field key_length]. unfold match_field.
  cbn [mk_field key_pattern getitem bind].
  change (reanchor "\d+") with "^\d+$".
  rewrite (digits_pattern_matches b tail Hb Ht). reflexivity.
Qed.

Lemma decimal_field_extracted (name pattern b : string) :
  _candidate2fields b (mk_local None [mk_field name pattern None None])
  = Ok (<[0%nat := b]> ∅).
Proof.
  unfold _candidate2fields.
  change (format_is_binary
            (mk_local None [mk_field name pattern None None])) with false.
  cbn [bind mk_local key_fields getitem slice_fields mk_field key_length
       Nat.add].
  rewrite slice_from_start by lia. reflexivity.
Qed.

Lemma single_field_rendered (community name pattern value : string) (g : Z)
  (format : option string) :
  _print_match community
    (mk_regular g (mk_local format [mk_field name pattern None None]))
    (<[0%nat := value]> ∅)
  = Ok (Py.str g ++ ":" ++ name ++ "=" ++ value).
Proof.
  unfold _print_match.
  cbn [mk_regular key_asn4 key_asn key_globaladmin key_localadmin
       key_localdatapart1 mk_local key_fields getitem bind output_fields
       mk_field key_name key_description Nat.add].
  rewrite lookup_insert_eq. reflexivity.
Qed.

(** X24: A regular definition with one decimal field of pattern [\d+] and no
    length, first in the list: every community of its administrator is
    rendered as the administrator, a colon, the name of the field, an
    equals sign and the local value as it was written, with the line feed
    that may end the text. *)
Theorem decimal_field_renders_the_content (g : Z) (name b tail : string)
  (rest l e : list candidate) :
  0 <= g -> is_numeral b = true -> line_end tail ->
  parse_community
    (mk_parser
       (mk_regular g (mk_local None [mk_field name "\d+" None None]) :: rest)
       l e)
    (Py.str g ++ String ":" (b ++ tail))
  = Ok (Some (Py.str g ++ ":" ++ name ++ "=" ++ b ++ tail)).
Proof.
  intros Hg Hb Ht. pose proof (str_is_numeral g Hg) as Ha.
  rewrite dispatch_regular_core by (exists (Py.str g), b, tail; auto).
  unfold parse_regular_community.
  rewrite split_head by now apply numeral_no_colon.
  rewrite split_zero. cbn [mk_parser comm_regular].
  rewrite (decimal_field_found g name b tail rest Hb Ht). cbn [bind].
  change (key_localadmin
            (mk_regular g (mk_local None [mk_field name "\d+" None None])))
    with (Some (mk_local None [mk_field name "\d+" None None])).
  cbn [getitem bind]. rewrite decimal_field_extracted. cbn [bind].
  now rewrite single_field_rendered.
Qed.

Lemma decimal_field_renders_the_content_witness :
  parse_community
    (mk_parser
       [mk_regular 65000 (mk_local None [mk_field "tag" "\d+" None None])]
       [] [])
    (Py.str 65000 ++ String ":" ("123" ++ String Re.newline ""))
  = Ok (Some (Py.str 65000 ++ ":" ++ "tag" ++ "=" ++ "123"
              ++ String Re.newline "")).
Proof.
  apply decimal_field_renders_the_content;
    [lia | reflexivity | now right].
Defined.

Lemma star_class_complete (cs : Re.cset) (w rest : string) :
  all_in cs w = true ->
  forall n fuel,
    (String.length (w ++ rest) <= fuel)%nat ->
    In ((n + String.length w)%nat, rest)
       (Re.star_run (Re.run (Re.Chr cs)) fuel (n, w ++ rest)).
Proof.
  induction w as [| c w IH]; intros Hw n fuel Hfuel.
  - cbn [String.append String.length]. rewrite Nat.add_0_r.
    destruct fuel; left; reflexivity.
  - cbn [all_in] in Hw. apply andb_prop in Hw as [Hc Hw].
    cbn [String.append String.length] in *.
    destruct fuel as [| fuel]; [lia |].
    cbn [Re.star_run Re.run snd fst]. rewrite Hc. right.
    cbn [List.filter]. unfold Re.shorter at 1. cbn [snd String.length].
    replace (String.length (w ++ rest) <? S (String.length (w ++ rest)))%nat
      with true by (symmetry; apply Nat.ltb_lt; lia).
    cbn [flat_map]. apply in_or_app. left.
    replace (n + S (String.length w))%nat with (S n + String.length w)%nat
      by lia.
    apply IH; [exact Hw | lia].
Qed.

Lemma binary_pattern_matches (s : string) :
  s <> "" -> all_in binary_class s = true ->
  Re.re_match "^[01]+$" s = Ok true.
Proof.
  intros Hne Hs. unfold Re.re_match.
  change (Re.compile "^[01]+$")
    with (Some (Re.Cat Re.Bol
                  (Re.Cat (Re.Cat (Re.Chr binary_class)
                             (Re.Star (Re.Chr binary_class)))
                     at_end))).
  f_equal. destruct s as [| c w]; [congruence |].
  cbn [all_in] in Hs. apply andb_prop in Hs as [Hc Hw].
  rewrite <- (append_empty w). eapply in_matches.
  eapply in_run_cat_intro; [now left |].
  eapply in_run_cat_intro.
  - eapply in_run_cat_intro.
    + cbn [Re.run snd fst]. rewrite Hc. now left.
    + cbn [Re.run snd]. now apply (star_class_complete binary_class w "").
  - apply run_at_end_complete. now left.
Qed.

Lemma all_in_app (cs : Re.cset) (s t : string) :
  all_in cs s = true -> all_in cs t = true -> all_in cs (s ++ t) = true.
Proof.
  induction s as [| c s IH]; cbn [String.append all_in]; [tauto |].
  intros H Ht. apply andb_prop in H as [-> Hs]. now apply IH.
Qed.

Lemma bits_are_binary (n : N) (k : nat) :
  all_in binary_class (Py.zeros k ++ Py.bin n) = true /\
  Py.zeros k ++ Py.bin n <> "".
Proof.
  split.
  - apply all_in_app.
    + induction k as [| k IH]; [reflexivity | exact IH].
    + destruct n as [| p]; [reflexivity |]. cbn [Py.bin].
      induction p as [p IH | p IH |]; cbn [Py.bin_pos];
        [now apply all_in_app .. | reflexivity].
  - pose proof (bin_not_empty n) as Hne.
    destruct (Py.zeros k); [exact Hne | discriminate].
Qed.

(** X25: A regular binary definition with one field of pattern [[01]+] and no
    length, first in the list: every community of its administrator is
    rendered with the binary digits of the local value, padded to sixteen
    digits, as the value of the field. *)
Theorem binary_field_renders_the_bits (g : Z) (name b : string)
  (rest l e : list candidate) :
  0 <= g -> is_numeral b = true ->
  parse_community
    (mk_parser
       (mk_regular g
          (mk_local (Some "binary") [mk_field name "[01]+" None None])
        :: rest) l e)
    (Py.str g ++ String ":" b)
  = Ok (Some (Py.str g ++ ":" ++ name ++ "="
              ++ Py.zeros (16 - String.length (Py.bin (numeral_value b)))
              ++ Py.bin (numeral_value b))).
Proof.
  intros Hg Hb. pose proof (str_is_numeral g Hg) as Ha.
  set (bits := Py.zeros (16 - String.length (Py.bin (numeral_value b)))
               ++ Py.bin (numeral_value b)).
  set (la := mk_local (Some "binary") [mk_field name "[01]+" None None]).
  destruct (bits_are_binary (numeral_value b)
              (16 - String.length (Py.bin (numeral_value b))))
    as [Hbin Hne].
  fold bits in Hbin, Hne.
  rewrite dispatch_regular_core
    by (exists (Py.str g), b, ""; rewrite append_empty;
        repeat split; auto; now left).
  unfold parse_regular_community.
  rewrite split_head by now apply numeral_no_colon.
  rewrite split_zero. cbn [mk_parser comm_regular].
  assert (Hfound : _try_candidates_regular (Py.str g) b
                     (mk_regular g la :: rest) = Ok (Some (mk_regular g la))).
  { cbn [_try_candidates_regular mk_regular key_globaladmin key_localadmin
         getitem bind].
    rewrite String.eqb_refl. cbn [negb].
    change (format_is_binary la) with true.
    rewrite (decimal2bits_numeral b 16 Hb). fold bits.
    cbn [bind]. unfold la at 1. cbn [mk_local key_fields getitem bind].
    unfold _try_candidate_fields.
    cbn [try_fields_from mk_field key_length]. unfold match_field.
    cbn [mk_field key_pattern getitem bind].
    change (reanchor "[01]+") with "^[01]+$".
    rewrite (binary_pattern_matches bits Hne Hbin). reflexivity. }
  rewrite Hfound. cbn [bind].
  change (key_localadmin (mk_regular g la)) with (Some la).
  cbn [getitem bind].
  assert (Hfields : _candidate2fields b la = Ok (<[0%nat := bits]> ∅)).
  { unfold _candidate2fields. change (format_is_binary la) with true.
    rewrite (decimal2bits_numeral b 16 Hb). fold bits.
    unfold la.
    cbn [bind mk_local key_fields getitem slice_fields mk_field key_length
         Nat.add].
    rewrite slice_from_start by lia. reflexivity. }
  rewrite Hfields. cbn [bind]. unfold la.
  now rewrite single_field_rendered.
Qed.

Lemma binary_field_renders_the_bits_witness :
  parse_community
    (mk_parser
       [mk_regular 65000
          (mk_local (Some "binary") [mk_field "bits" "[01]+" None None])]
       [] [])
    (Py.str 65000 ++ String ":" "40000")
  = Ok (Some (Py.str 65000 ++ ":" ++ "bits" ++ "="
              ++ Py.zeros (16 - String.length (Py.bin (numeral_value "40000")))
              ++ Py.bin (numeral_value "40000"))).
Proof.
  apply binary_field_renders_the_bits; [lia | reflexivity].
Defined.

(** X26: A regular definition with an empty list of fields, first in the
    list, is found for every community of its administrator, and the
    rendered text is the administrator and a colon. *)
Theorem empty_field_list_fits_everything (g : Z) (b : string)
  (format : option string) (rest l e : list candidate) :
  0 <= g -> is_numeral b = true ->
  parse_community
    (mk_parser (mk_regular g (mk_local format []) :: rest) l e)
    (Py.str g ++ String ":" b)
  = Ok (Some (Py.str g ++ ":")).
Proof.
  intros Hg Hb. pose proof (str_is_numeral g Hg) as Ha.
  rewrite dispatch_regular_core
    by (exists (Py.str g), b, ""; rewrite append_empty;
        repeat split; auto; now left).
  unfold parse_regular_community.
  rewrite split_head by now apply numeral_no_colon.
  rewrite split_zero. cbn [mk_parser comm_regular].
  set (la := mk_local format []).
  assert (Hfound : _try_candidates_regular (Py.str g) b
                     (mk_regular g la :: rest) = Ok (Some (mk_regular g la))).
  { cbn [_try_candidates_regular mk_regular key_globaladmin key_localadmin
         getitem bind].
    rewrite String.eqb_refl. cbn [negb].
    destruct (format_is_binary la);
      [rewrite (decimal2bits_numeral b 16 Hb) |]; reflexivity. }
  rewrite Hfound. cbn [bind].
  change (key_localadmin (mk_regular g la)) with (Some la).
  cbn [getitem bind]. unfold _candidate2fields.
  destruct (format_is_binary la);
    [rewrite (decimal2bits_numeral b 16 Hb) |]; reflexivity.
Qed.

Lemma empty_field_list_fits_everything_witness :
  parse_community
    (mk_parser [mk_regular 65000 (mk_local None [])] [] [])
    (Py.str 65000 ++ String ":" "123")
  = Ok (Some (Py.str 65000 ++ ":")).
Proof.
  apply empty_field_list_fits_everything; [lia | reflexivity].
Defined.

(** ** A definition without its key *)

(** X11: A regular definition without [globaladmin] makes the lookup raise
    [KeyError] for every administrator that the definitions before it are
    not of, whatever comes after it. *)
Theorem missing_globaladmin_breaks_lookup (asn content : string)
  (before after : list candidate) (c : candidate) :
  Forall (other_admin asn) before -> key_globaladmin c = None ->
  _try_candidates_regular asn content (before ++ c :: after)%list
  = Raise KeyError.
Proof.
  intros Hbefore Hc. revert content.
  induction Hbefore as [| x before (g & Hg & Hne) _ IH]; intros content.
  - cbn [app _try_candidates_regular]. now rewrite Hc.
  - cbn [app _try_candidates_regular]. rewrite Hg. cbn [getitem bind].
    replace (String.eqb asn (Py.str g)) with false; [apply IH |].
    symmetry. apply String.eqb_neq. congruence.
Qed.

Lemma missing_globaladmin_breaks_lookup_witness :
  _try_candidates_regular "64999" "5"
    ([regular_decimal_five]
     ++ mk_extended 0 2 (Some 64999) None (mk_local None [])
     :: [mk_regular 64999 (mk_local None [])])%list
  = Raise KeyError.
Proof.
  apply missing_globaladmin_breaks_lookup; [| reflexivity].
  repeat constructor. exists 65000. split; [reflexivity | discriminate].
Defined.

(** ** Extended communities: the octets *)

Lemma extended_other_type (extype exsubtype asn content : string)
  (candidates : list candidate) (t : Z) :
  Py.int_of 16 extype = Ok t ->
  Forall (other_type t) candidates ->
  _try_candidates_extended extype exsubtype asn content candidates = Ok None.
Proof.
  intros Ht. induction 1 as [| c rest (ct & Hct & Hne) _ IH];
    [reflexivity |].
  cbn [_try_candidates_extended]. rewrite Ht, Hct. cbn [getitem bind].
  replace (t =? ct) with false; [exact IH |].
  symmetry. apply Z.eqb_neq. congruence.
Qed.

(** X6: An extended community whose type no loaded definition has gets the
    answer [None]: the definitions of other types are passed over on
    their [type] alone. *)
Theorem unknown_type_is_no_match (self : BGPCommunityParser)
  (o1 o2 a b tail : string) (t : Z) :
  is_octet o1 -> is_octet o2 ->
  is_numeral a = true -> is_numeral b = true -> line_end tail ->
  Py.int_of 16 o1 = Ok t ->
  Forall (other_type t) (comm_extended self) ->
  parse_community self
    (o1 ++ String ":" (o2 ++ String ":" (a ++ String ":" (b ++ tail))))
  = Ok None.
Proof.
  intros H1 H2 Ha Hb Htail Ht Hall.
  rewrite dispatch_extended_core by (exists o1, o2, a, b, tail; auto 10).
  unfold parse_extended_community.
  rewrite split_head by now apply is_octet_no_colon.
  rewrite split_head by now apply is_octet_no_colon.
  rewrite split_head by now apply numeral_no_colon.
  rewrite split_zero.
  now rewrite (extended_other_type o1 o2 a (b ++ tail) _ t Ht Hall).
Qed.

Lemma unknown_type_is_no_match_witness :
  parse_community (mk_parser [] [] [extended_asn_hi_lo; extended_asn4_16])
    ("0x01" ++ String ":" ("0x02" ++ String ":"
       ("65000" ++ String ":" ("1" ++ ""))))
  = Ok None.
Proof.
  apply (unknown_type_is_no_match _ "0x01" "0x02" "65000" "1" "" 1);
    try reflexivity; try (now left);
    try (eexists _, _; repeat split).
  repeat constructor; [exists 0 | exists 2];
    (split; [reflexivity | discriminate]).
Defined.

Lemma octet_value (d1 d2 : ascii) :
  Py.is_digit d1 = true -> Py.is_digit d2 = true ->
  exists t : Z,
    Py.int_of 16 (String "0" (String "x" (String d1 (String d2 "")))) = Ok t /\
    0 <= t < 160 /\ t mod 16 <= 9.
Proof.
  intros H1 H2.
  apply digit_cases in H1, H2. cbn [In] in H1, H2.
  repeat (destruct H1 as [<- | H1]); try contradiction;
    repeat (destruct H2 as [<- | H2]); try contradiction;
    eexists; (split; [vm_compute; reflexivity |]); vm_compute;
    repeat split; discriminate.
Qed.

(** X10: Through [parse_community], an extended definition is found only if
    its type and its subtype are numbers whose two hexadecimal digits are
    both decimal digits: below 160 and with a remainder of at most 9
    modulo 16.  A definition of type 10 (0x0a), say, is never found. *)
Theorem found_octets_have_decimal_digits (self : BGPCommunityParser)
  (s : string) (found : candidate) (o1 o2 a rest : string) :
  extended_form s ->
  Py.split ":" 3 s = [o1; o2; a; rest] ->
  _try_candidates_extended o1 o2 a rest (comm_extended self)
  = Ok (Some found) ->
  exists t st,
    key_type found = Some t /\ key_subtype found = Some st /\
    0 <= t < 160 /\ t mod 16 <= 9 /\ 0 <= st < 160 /\ st mod 16 <= 9.
Proof.
  intros (p1 & p2 & pa & pb & tail & -> & Hp1 & Hp2 & Ha & Hb & Ht) Hsplit H.
  rewrite split_head in Hsplit by now apply is_octet_no_colon.
  rewrite split_head in Hsplit by now apply is_octet_no_colon.
  rewrite split_head in Hsplit by now apply numeral_no_colon.
  rewrite split_zero in Hsplit. injection Hsplit as <- <- <- <-.
  apply extended_found_has_passed_core in H
    as (_ & (t & st & Et & Hkt & Est & Hkst) & _).
  destruct Hp1 as (d1 & d2 & -> & Hd1 & Hd2).
  destruct Hp2 as (d3 & d4 & -> & Hd3 & Hd4).
  destruct (octet_value d1 d2 Hd1 Hd2) as (t' & Et' & Ht1 & Ht2).
  destruct (octet_value d3 d4 Hd3 Hd4) as (st' & Est' & Hst1 & Hst2).
  rewrite Et in Et'. rewrite Est in Est'.
  injection Et' as <-. injection Est' as <-.
  exists t, st. auto 10.
Qed.

Lemma found_octets_have_decimal_digits_witness :
  exists t st,
    key_type extended_asn_hi_lo = Some t /\
    key_subtype extended_asn_hi_lo = Some st /\
    0 <= t < 160 /\ t mod 16 <= 9 /\ 0 <= st < 160 /\ st mod 16 <= 9.
Proof.
  apply (found_octets_have_decimal_digits
           (mk_parser [] [] [extended_asn_hi_lo])
           "0x00:0x02:65000:1" extended_asn_hi_lo
           "0x00" "0x02" "65000" "1").
  - exists "0x00", "0x02", "65000", "1", "".
    repeat split; try (now left); eexists _, _; repeat split.
  - reflexivity.
  - vm_compute. reflexivity.
Defined.

(** ** A parser without sources *)

(** X29: The parser that [__init__] builds from no source answers [None] to
    every text. *)
Theorem empty_parser_finds_nothing (s : string) :
  parse_community (__init__ []) s = Ok None.
Proof.
  change (__init__ []) with empty_parser.
  destruct shapes_compile as (Hc1 & Hc2 & Hc3).
  unfold parse_community, Re.re_match.
  rewrite Hc1, Hc2, Hc3. cbn [bind].
  destruct (Re.matches regular_shape s) eqn:E1.
  { apply regular_shape_iff in E1 as (a & b & tail & -> & Ha & Hb & Ht).
    unfold parse_regular_community.
    rewrite split_head by now apply numeral_no_colon.
    now rewrite split_zero. }
  destruct (Re.matches large_shape s) eqn:E2.
  { apply large_shape_iff in E2
      as (a & b & c & tail & -> & Ha & Hb & Hc & Ht).
    unfold parse_large_community.
    rewrite !split_head by now apply numeral_no_colon.
    now rewrite split_zero. }
  destruct (Re.matches extended_shape s) eqn:E3; [| reflexivity].
  apply extended_shape_iff in E3
    as (o1 & o2 & a & b & tail & -> & H1 & H2 & Ha & Hb & Ht).
  unfold parse_extended_community.
  rewrite split_head by now apply is_octet_no_colon.
  rewrite split_head by now apply is_octet_no_colon.
  rewrite split_head by now apply numeral_no_colon.
  now rewrite split_zero.
Qed.

(** ** Extended communities: searching a concatenation *)

(** X13: [_try_candidates_extended] on two lists put together finds what it
    finds in the first list and, where it finds nothing there, what it
    finds in the second; an exception in the first list is the answer. *)
Theorem extended_search_splits (extype exsubtype asn content : string)
  (l1 l2 : list candidate) :
  _try_candidates_extended extype exsubtype asn content (l1 ++ l2)%list =
  match _try_candidates_extended extype exsubtype asn content l1 with
  | Ok None => _try_candidates_extended extype exsubtype asn content l2
  | r => r
  end.
Proof. apply extended_app. Qed.

(** X14: Loading a document a second time changes the answer of
    [parse_extended_community] for no text, whatever the parser and the
    document hold. *)
Theorem extended_loaded_twice_as_once (self : BGPCommunityParser)
  (source community : string) (jdata : document) :
  parse_extended_community
    (load_source (load_source self source jdata) source jdata) community
  = parse_extended_community (load_source self source jdata) community.
Proof. apply extended_second_load_is_idle. Qed.

(** ** A text that [int] does not read *)

Lemma digit_of_not_colon (base : N) (c : ascii) :
  (base <= 36)%N -> Py.is_digit_of base c = true -> Ascii.eqb c ":" = false.
Proof.
  intros Hb Hc. destruct (Ascii.eqb c ":") eqn:E; [| reflexivity].
  apply Ascii.eqb_eq in E. subst c.
  unfold Py.is_digit_of in Hc. apply N.ltb_lt in Hc.
  change (Py.digit_value ":") with 36%N in Hc. lia.
Qed.

Lemma space_not_colon (c : ascii) :
  Py.is_space c = true -> Ascii.eqb c ":" = false.
Proof. ascii_cases c; intros H; try discriminate H; reflexivity. Qed.

Lemma all_space_no_colon (s : string) :
  Py.all_space s = true -> count ":" s = O.
Proof.
  induction s as [| c s IH]; [reflexivity |].
  cbn [Py.all_space count]. intros H. apply andb_prop in H as [Hc Hs].
  rewrite (space_not_colon c Hc). now apply IH.
Qed.

Lemma lstrip_colons (s : string) : count ":" (Py.lstrip s) = count ":" s.
Proof.
  induction s as [| c s IH]; [reflexivity |].
  cbn [Py.lstrip]. destruct (Py.is_space c) eqn:E; [| reflexivity].
  cbn [count]. now rewrite (space_not_colon c E).
Qed.

Lemma scan_digits_colons (base : N) (s : string) :
  (base <= 36)%N ->
  (forall acc n rest,
     Py.scan_digits base acc s = Some (n, rest) ->
     count ":" s = count ":" rest) /\
  (forall c acc n rest,
     Py.scan_digits base acc (String c s) = Some (n, rest) ->
     count ":" (String c s) = count ":" rest).
Proof.
  intros Hb. induction s as [| d s [IH1 IH2]].
  - split.
    + intros acc n rest H. cbn in H. now injection H as _ <-.
    + intros c acc n rest H. cbn [Py.scan_digits] in H.
      destruct (Ascii.eqb c "_"); [discriminate H |].
      destruct (Py.is_digit_of base c) eqn:Ec.
      * cbn in H. injection H as _ <-. cbn [count].
        now rewrite (digit_of_not_colon base c Hb Ec).
      * now injection H as _ <-.
  - split; [exact (IH2 d) |].
    intros c acc n rest H. cbn [Py.scan_digits] in H.
    destruct (Ascii.eqb c "_") eqn:Eu.
    + apply Ascii.eqb_eq in Eu. subst c.
      destruct (Py.is_digit_of base d) eqn:Ed; [| discriminate H].
      apply IH1 in H. cbn [count].
      change (Ascii.eqb "_" ":") with false. cbn iota.
      now rewrite (digit_of_not_colon base d Hb Ed).
    + destruct (Py.is_digit_of base c) eqn:Ec.
      * fold (Py.scan_digits base
                (acc * base + Py.digit_value c)%N (String d s)) in H.
        apply IH2 in H. cbn [count] in *.
        now rewrite (digit_of_not_colon base c Hb Ec).
      * now injection H as _ <-.
Qed.

Lemma int_magnitude_colons (s : string) (n : N) :
  Py.int_magnitude 10 s = Some n -> count ":" s = O.
Proof.
  unfold Py.int_magnitude. destruct s as [| c s]; [discriminate |].
  destruct (Py.is_digit_of 10 c) eqn:Ec; [| discriminate].
  destruct (Py.scan_digits 10 (Py.digit_value c) s) as [[m rest] |] eqn:Es;
    [| discriminate].
  destruct (Py.all_space rest) eqn:Er; [| discriminate]. intros _.
  cbn [count]. rewrite (digit_of_not_colon 10 c ltac:(lia) Ec).
  destruct (scan_digits_colons 10 s ltac:(lia)) as [H1 _].
  rewrite (H1 _ _ _ Es). now apply all_space_no_colon.
Qed.

Lemma strip_prefix_10 (s : string) : Py.strip_prefix 10 s = s.
Proof.
  destruct s as [| c [| x s]]; try reflexivity;
    ascii_cases c; reflexivity.
Qed.

Lemma sign_colons (s : string) :
  exists neg t,
    match s with
    | String "-" s' => (true, s')
    | String "+" s' => (false, s')
    | _ => (false, s)
    end = (neg, t) /\ count ":" t = count ":" s.
Proof.
  destruct s as [| c s]; [exists false, ""; now split |].
  ascii_cases c; eexists _, _; split; reflexivity.
Qed.

Lemma int_reads_no_colon (s : string) (z : Z) :
  Py.int s = Ok z -> count ":" s = O.
Proof.
  unfold Py.int, Py.int_of. intros H.
  destruct (sign_colons (Py.lstrip s)) as (neg & t & E & Hc).
  rewrite E in H. rewrite strip_prefix_10 in H.
  destruct (Py.int_magnitude 10 t) as [n |] eqn:En; [| discriminate H].
  apply int_magnitude_colons in En.
  rewrite <- lstrip_colons, <- Hc. exact En.
Qed.

Lemma decimal2bits_rejects_colon (content : string) (width : nat) :
  (0 < count ":" content)%nat ->
  _decimal2bits content width = Raise ValueError.
Proof.
  intros Hc. unfold _decimal2bits.
  destruct (Py.int content) as [z | e] eqn:E.
  - apply int_reads_no_colon in E. lia.
  - unfold Py.int, Py.int_of in E.
    destruct (sign_colons (Py.lstrip content)) as (neg & t & Es & _).
    rewrite Es in E.
    destruct (Py.int_magnitude 10 (Py.strip_prefix 10 t));
      [discriminate E | now injection E as <-].
Qed.

(** X12: [parse_regular_community] called with a text of two colons or more
    raises [ValueError] once the lookup reaches a binary definition of the
    administrator: the local part, colon included, is handed to [int]. *)
Theorem regular_entry_point_raises_on_more_colons
  (self : BGPCommunityParser) (a content : string)
  (before after : list candidate) (c : candidate) (g : Z) (la : local_def) :
  count ":" a = O -> (0 < count ":" content)%nat ->
  comm_regular self = (before ++ c :: after)%list ->
  Forall (other_admin a) before ->
  key_globaladmin c = Some g -> a = Py.str g ->
  key_localadmin c = Some la -> format_is_binary la = true ->
  parse_regular_community self (a ++ String ":" content) = Raise ValueError.
Proof.
  intros Ha Hc Hreg Hbefore Hg -> Hla Hbin.
  unfold parse_regular_community.
  rewrite split_head by assumption. rewrite split_zero, Hreg.
  assert (H : _try_candidates_regular (Py.str g) content
                (before ++ c :: after)%list = Raise ValueError).
  { clear Hreg. induction Hbefore as [| x before (gx & Hgx & Hne) _ IH].
    - cbn [app _try_candidates_regular]. rewrite Hg. cbn [getitem bind].
      rewrite String.eqb_refl. cbn [negb]. rewrite Hla. cbn [getitem bind].
      rewrite Hbin. now rewrite decimal2bits_rejects_colon.
    - cbn [app _try_candidates_regular]. rewrite Hgx. cbn [getitem bind].
      replace (String.eqb (Py.str g) (Py.str gx)) with false; [exact IH |].
      symmetry. apply String.eqb_neq. congruence. }
  now rewrite H.
Qed.

Lemma regular_entry_point_raises_on_more_colons_witness :
  parse_regular_community
    (mk_parser [regular_binary_never; regular_decimal_five] [] [])
    ("65000" ++ String ":" "5:7")
  = Raise ValueError.
Proof.
  apply (regular_entry_point_raises_on_more_colons
           (mk_parser [regular_binary_never; regular_decimal_five] [] [])
           "65000" "5:7" [] [regular_decimal_five] regular_binary_never
           65000
           (mk_local (Some "binary") [mk_field "none" "x" None None]));
    try reflexivity.
  - cbn. lia.
  - constructor.
Defined.

(** ** Extended communities: the style of the administrator *)




(** ** Well-formed in the words of the claim *)


(** The well-formedness that [parse_community] needs is the claim's and
    one condition more: no [localadmin] key on a large definition. *)
Lemma wf_large_is_claimed_without_localadmin (c : candidate) :
  wf_large c
  = claimed_wf_large c
    && match key_localadmin c with Some _ => false | None => true end.
Proof.
  unfold wf_large, claimed_wf_large.
  destruct (key_globaladmin c), (key_localadmin c),
    (key_localdatapart1 c), (key_localdatapart2 c); cbn;
    rewrite ?andb_true_r, ?andb_false_r; reflexivity.
Qed.
